(** * suricatatalk/mail: the mail-dispatch engine and its clients

    A shallow embedding of the Go sources of the repository:

    - package [main] (the dispatch engine: [MailGunMailer], its worker
      goroutine started by [NewMailGun], the NATS and HTTP ingress handlers);
    - package [client] (the message composer, [SuricataMailClient] with its
      directory resolution, [NatsMailClient]).

    Go strings are byte sequences and are embedded as [string]; a Go [error]
    is [option error] with [None] for [nil]; a function returning
    [(T, error)] returns a pair.  The goroutine and its channel are embedded
    as a labelled transition system whose transition function is executable. *)

From Stdlib Require Import String Ascii List Bool Arith Lia.
Import ListNotations.
Open Scope string_scope.
Open Scope list_scope.
Open Scope nat_scope.
Set Warnings "-register-all".

(** ** Errors

    The sentinel errors the two packages declare with [fmt.Errorf], and the
    errors produced by the external collaborators (directory, HTTP, JSON,
    NATS, provider), which the code only ever passes along. *)
Inductive error : Type :=
| ErrMailerNotInitialized      (* mailgunmailer: Mailer not initialized yet *)
| ErrMailServiceNotFound       (* mailclient: Cannot resolve service host *)
| ErrMailClientNotInitialized  (* mailclient: MailClient not initialized *)
| ExternalError (msg : string).

(** * Package main: the dispatch engine *)
Module Server.

(** [type mailStruct struct { Sender, Message, Subject, Recipient string }],
    with the fields in the order of the declaration: an unkeyed composite
    literal [mailStruct{a, b, c, d}] is [Build_mailStruct a b c d]. *)
Record mailStruct : Type := {
  Sender    : string;
  Message   : string;
  Subject   : string;
  Recipient : string
}.

(** The zero value [mailStruct{}]. *)
Definition mailStruct_zero : mailStruct := Build_mailStruct "" "" "" "".

(** What the provider is handed: [mailgun.NewMessage(from, subject, text
    string, to ...string)]. *)
Record MailgunMessage : Type := {
  msg_from    : string;
  msg_subject : string;
  msg_text    : string;
  msg_to      : list string
}.

Definition NewMessage (from subject text : string) (to : list string)
  : MailgunMessage :=
  {| msg_from := from; msg_subject := subject; msg_text := text; msg_to := to |}.

(** A channel of [mailStruct]: [make(chan mailStruct, n)] has capacity [n]
    and an empty buffer. *)
Record chan : Type := {
  cap : nat;
  buf : list mailStruct
}.

Definition make (n : nat) : chan := {| cap := n; buf := [] |}.

(** [type MailGunMailer struct { mailgun.Mailgun; sendChannel chan
    mailStruct; sender string; cancel context.CancelFunc }].  A nil channel
    is [None].  The provider handle and the cancel function carry no data the
    model reads: the provider is the environment of the worker, and the
    cancel function acts on the [ctxDone] flag of the world below. *)
Record MailGunMailer : Type := {
  sendChannel : option chan;
  sender      : string
}.

(** The worker goroutine: blocked in its [select], between the receive and
    the end of the loop body, or returned. *)
Inductive WorkerState : Type :=
| Waiting
| Handling (m : mailStruct)
| Exited.

(** The engine and what has been observed of it: the mailer (whose channel
    the worker shares), the worker, whether the context is cancelled, the
    messages handed to [mg.Send] in order, the provider errors the worker
    logged, and the values [SendMail] returned to its callers in order. *)
Record World : Type := {
  mailer   : MailGunMailer;
  worker   : WorkerState;
  ctxDone  : bool;
  calls    : list MailgunMessage;
  errlog   : list error;
  returned : list (option error)
}.

(** A method body that talks to the channel: it returns, or sends a value
    and goes on. *)
Inductive Prog : Type :=
| Return (e : option error)
| ChanSend (m : mailStruct) (k : Prog).

(** [func (mgm *MailGunMailer) SendMail(subject, message, recipient string)
    error]. *)
Definition SendMail (mgm : MailGunMailer) (subject message recipient : string)
  : Prog :=
  match sendChannel mgm with
  | None => Return (Some ErrMailerNotInitialized)
  | Some _ =>
      ChanSend (Build_mailStruct (sender mgm) message subject recipient)
               (Return None)
  end.

(** The value a method body returns once it is through. *)
Fixpoint result (p : Prog) : option error :=
  match p with
  | Return e => e
  | ChanSend _ k => result k
  end.

(** The values a method body puts on the channel. *)
Fixpoint sends (p : Prog) : list mailStruct :=
  match p with
  | Return _ => []
  | ChanSend m k => m :: sends k
  end.

(** [func NatsMailerFunc(m Mailer) nats.Handler]: the handler receives the
    decoded envelope and drops the result of [SendMail]. *)
Definition NatsMailerFunc (m : MailGunMailer) (mail : mailStruct) : Prog :=
  SendMail m (Subject mail) (Message mail) (Recipient mail).

Section Engine.

(** [json.NewDecoder(req.Body).Decode(&mail)]: the decoder fills the struct
    it is given from the request body and reports an error. *)
Variable json_Decode : string -> mailStruct -> mailStruct * option error.

(** [func HttpMailerFunc(m Mailer) http.HandlerFunc]: the decoding error is
    not looked at. *)
Definition HttpMailerFunc (m : MailGunMailer) (body : string) : Prog :=
  let mail := fst (json_Decode body mailStruct_zero) in
  SendMail m (Subject mail) (Message mail) (Recipient mail).

(** [func NewMailGun(domain, apiKey, sender string) Mailer]: an unbuffered
    channel, a fresh context, and the worker started. *)
Definition NewMailGun (domain apiKey sender_ : string) : World :=
  {| mailer   := {| sendChannel := Some (make 0); sender := sender_ |};
     worker   := Waiting;
     ctxDone  := false;
     calls    := [];
     errlog   := [];
     returned := [] |}.

(** A mailer that was never started: the zero value with a sender, no
    channel and no worker. *)
Definition unstarted (sender_ : string) : World :=
  {| mailer   := {| sendChannel := None; sender := sender_ |};
     worker   := Exited;
     ctxDone  := false;
     calls    := [];
     errlog   := [];
     returned := [] |}.

Definition with_chan (w : World) (c : chan) : World :=
  {| mailer   := {| sendChannel := Some c; sender := sender (mailer w) |};
     worker   := worker w;
     ctxDone  := ctxDone w;
     calls    := calls w;
     errlog   := errlog w;
     returned := returned w |}.

Definition with_worker (w : World) (s : WorkerState) : World :=
  {| mailer   := mailer w;
     worker   := s;
     ctxDone  := ctxDone w;
     calls    := calls w;
     errlog   := errlog w;
     returned := returned w |}.

(** [ch <- m] completing: into the buffer when there is room, and on an
    unbuffered channel straight to the worker when it waits in its [select].
    [None] when the send cannot complete in this state (it blocks; a send on
    a nil channel blocks forever). *)
Definition chan_send (m : mailStruct) (w : World) : option World :=
  match sendChannel (mailer w) with
  | None => None
  | Some c =>
      if Nat.ltb (List.length (buf c)) (cap c)
      then Some (with_chan w {| cap := cap c; buf := buf c ++ [m] |})
      else match worker w, buf c with
           | Waiting, [] => Some (with_worker w (Handling m))
           | _, _ => None
           end
  end.

(** Running a method body to its return. *)
Fixpoint exec (p : Prog) (w : World) : option (World * option error) :=
  match p with
  | Return e => Some (w, e)
  | ChanSend m k =>
      match chan_send m w with
      | Some w' => exec k w'
      | None => None
      end
  end.

(** What can happen: a caller's [SendMail] returning, a NATS delivery or an
    HTTP request handled to the end, the worker taking a message from the
    buffer, the worker's [mg.Send] returning (with what the provider
    answered), [Close], and the worker leaving on [ctx.Done()]. *)
Inductive Event : Type :=
| EvSendMail (subject message recipient : string)
| EvNats (mail : mailStruct)
| EvHttp (body : string)
| EvReceive
| EvProviderSend (response id : string) (err : option error)
| EvClose
| EvDone.

(** The method body an ingress event runs. *)
Definition ingress (mgm : MailGunMailer) (e : Event) : option Prog :=
  match e with
  | EvSendMail subject message recipient =>
      Some (SendMail mgm subject message recipient)
  | EvNats mail => Some (NatsMailerFunc mgm mail)
  | EvHttp body => Some (HttpMailerFunc mgm body)
  | _ => None
  end.

Definition record_return (w : World) (e : option error) : World :=
  {| mailer   := mailer w;
     worker   := worker w;
     ctxDone  := ctxDone w;
     calls    := calls w;
     errlog   := errlog w;
     returned := returned w ++ [e] |}.

(** The body of the worker's loop after [case m := <-senderChan]: build the
    provider message, send it, log the error if there is one. *)
Definition handle (w : World) (m : mailStruct) (err : option error) : World :=
  let message := NewMessage (Sender m) (Subject m) (Message m) [Recipient m] in
  {| mailer   := mailer w;
     worker   := Waiting;
     ctxDone  := ctxDone w;
     calls    := calls w ++ [message];
     errlog   := match err with
                 | Some e => errlog w ++ [e]
                 | None => errlog w
                 end;
     returned := returned w |}.

(** One transition; [None] when the event cannot happen in this state. *)
Definition step (w : World) (e : Event) : option World :=
  match e with
  | EvSendMail _ _ _ | EvNats _ | EvHttp _ =>
      match ingress (mailer w) e with
      | Some p =>
          match exec p w with
          | Some (w', r) => Some (record_return w' r)
          | None => None
          end
      | None => None
      end
  | EvReceive =>
      match worker w, sendChannel (mailer w) with
      | Waiting, Some c =>
          match buf c with
          | m :: rest =>
              Some (with_worker (with_chan w {| cap := cap c; buf := rest |})
                                (Handling m))
          | [] => None
          end
      | _, _ => None
      end
  | EvProviderSend _ _ err =>
      match worker w with
      | Handling m => Some (handle w m err)
      | _ => None
      end
  | EvClose =>
      Some {| mailer   := mailer w;
              worker   := worker w;
              ctxDone  := true;
              calls    := calls w;
              errlog   := errlog w;
              returned := returned w |}
  | EvDone =>
      match worker w, ctxDone w with
      | Waiting, true => Some (with_worker w Exited)
      | _, _ => None
      end
  end.

(** A run: the events of a trace, one after the other. *)
Fixpoint run (w : World) (tr : list Event) : option World :=
  match tr with
  | [] => Some w
  | e :: tr' =>
      match step w e with
      | Some w' => run w' tr'
      | None => None
      end
  end.

(** The argument triples [(subject, message, recipient)] of the [SendMail]
    calls of a trace, read off the handlers. *)
Definition submitted_by (e : Event) : list (string * string * string) :=
  match e with
  | EvSendMail subject message recipient => [(subject, message, recipient)]
  | EvNats mail => [(Subject mail, Message mail, Recipient mail)]
  | EvHttp body =>
      let mail := fst (json_Decode body mailStruct_zero) in
      [(Subject mail, Message mail, Recipient mail)]
  | _ => []
  end.

Definition submitted (tr : list Event) : list (string * string * string) :=
  flat_map submitted_by tr.

(** What the provider is to be called with for a submitted triple, on an
    engine configured with [sender_]. *)
Definition expected (sender_ : string) (t : string * string * string)
  : MailgunMessage :=
  let '(subject, message, recipient) := t in
  NewMessage sender_ subject message [recipient].

(** The provider message of a value taken from the channel. *)
Definition message_of (m : mailStruct) : MailgunMessage :=
  NewMessage (Sender m) (Subject m) (Message m) [Recipient m].

(** The messages accepted from submitters and not yet handed to the
    provider: the one the worker holds, then the buffer. *)
Definition pending (w : World) : list MailgunMessage :=
  match worker w with
  | Handling m => [message_of m]
  | _ => []
  end ++
  match sendChannel (mailer w) with
  | Some c => map message_of (buf c)
  | None => []
  end.

End Engine.

(** A started engine: the channel is set and its buffer is within its
    capacity. *)
Definition started (w : World) : Prop :=
  exists c, sendChannel (mailer w) = Some c
            /\ List.length (buf c) <= cap c.

Definition capacity (w : World) : nat :=
  match sendChannel (mailer w) with
  | Some c => cap c
  | None => 0
  end.

(** The errors the provider answered in a trace, in order. *)
Definition provider_errors (tr : list Event) : list error :=
  flat_map (fun e => match e with
                     | EvProviderSend _ _ (Some err) => [err]
                     | _ => []
                     end) tr.

(** Whether [Close] was called in a trace. *)
Definition closed (tr : list Event) : bool :=
  existsb (fun e => match e with
                    | EvClose => true
                    | _ => false
                    end) tr.

(** The decoder on a request body that holds no JSON value (an empty body,
    say): it reports the error and leaves the struct as it found it.  It
    stands for [json_Decode] in the closed runs below, whose HTTP requests,
    where there are any, have such a body. *)
Definition json_Decode_no_value (body : string) (mail : mailStruct)
  : mailStruct * option error :=
  (mail, Some (ExternalError "EOF")).

(** Traces of the closed runs below, on an engine made by
    [NewMailGun "example.org" "key" "info@suricata.com"]. *)

(** A direct submission, its provider call, and a NATS delivery whose
    provider call is still to come. *)
Definition trace_two_submissions : list Event :=
  [EvSendMail "Hi" "Hello" "a@b.com";
   EvProviderSend "Queued. Thank you." "<id-1>" None;
   EvNats (Build_mailStruct "" "Welcome" "Registration" "c@d.org")].

(** Two submissions, the second an HTTP request with an empty body, and a
    provider that refuses both. *)
Definition trace_provider_errors : list Event :=
  [EvSendMail "Hi" "Hello" "a@b.com";
   EvProviderSend "" "" (Some (ExternalError "mailgun: 401"));
   EvHttp "";
   EvProviderSend "" "" (Some (ExternalError "mailgun: 401"))].

(** A NATS envelope with a sender of its own and an empty recipient. *)
Definition trace_empty_recipient : list Event :=
  [EvNats (Build_mailStruct "someone@example.org" "Hello" "Hi" "");
   EvProviderSend "" "" None].

(** A submission, [Close] while the worker sends it, the provider's refusal,
    and the worker leaving. *)
Definition trace_closed : list Event :=
  [EvSendMail "Hi" "Hello" "a@b.com";
   EvClose;
   EvProviderSend "" "" (Some (ExternalError "mailgun: 401"));
   EvDone].

(** A NATS envelope with a sender of its own. *)
Definition trace_foreign_sender : list Event :=
  [EvNats (Build_mailStruct "someone@example.org" "Hello" "Hi" "a@b.com");
   EvProviderSend "" "" None].

End Server.

(** * Package main: what [main] wires together

    The configuration as [loadConfig] leaves it, and what [main] makes of
    it: the registration in the directory and the address the HTTP server
    listens on. *)
Module Main.

(** [const ServiceName = "mail"]. *)
Definition ServiceName : string := "mail".

(** [type AppConfig struct { Host, Port, Name, Domain, ApiKey, Sender
    string }]. *)
Record AppConfig : Type := {
  Host   : string;
  Port   : string;
  Name   : string;
  Domain : string;
  ApiKey : string;
  Sender : string
}.

(** [discovery.EtcdRegistryConfig], the fields [main] sets. *)
Record EtcdRegistryConfig : Type := {
  RegistryServiceName : string;
  InstanceName        : string;
  BaseURL             : string;
  EtcdEndpoints       : list string
}.

(** The registration [main] makes: [registryConfig] is declared with
    [ServiceName: ServiceName]; [main] sets [InstanceName] to the name,
    [BaseURL] to [fmt.Sprintf("%s:%s", appConfig.Host, appConfig.Port)] and
    [EtcdEndpoints] to the one endpoint of the configuration. *)
Definition registryConfig (appConfig : AppConfig) (etcdEndpoint : string)
  : EtcdRegistryConfig :=
  {| RegistryServiceName := ServiceName;
     InstanceName := Name appConfig;
     BaseURL := (Host appConfig ++ ":" ++ Port appConfig)%string;
     EtcdEndpoints := [etcdEndpoint] |}.

(** [http.ListenAndServe(":5050", nil)]. *)
Definition listenAddr : string := ":5050".

End Main.

(** * Package main, the earlier version

    An earlier version of package [main] has the types and the worker above;
    its [SendMail] writes the composite literal in another order. *)
Module ServerLegacy.

Import Server.

(** [func (mgm *MailGunMailer) SendMail(subject, message, recipient string)
    error], with the literal [mailStruct{mgm.sender, subject, message,
    recipient}]. *)
Definition SendMail (mgm : MailGunMailer) (subject message recipient : string)
  : Prog :=
  match sendChannel mgm with
  | None => Return (Some ErrMailerNotInitialized)
  | Some _ =>
      ChanSend (Build_mailStruct (sender mgm) subject message recipient)
               (Return None)
  end.

End ServerLegacy.

(** * encoding/json, as far as the client uses it

    [json.Marshal] is Go's standard library, not code of this repository.
    The model follows its documentation and the encoder of the Go releases
    the repository was written for: channel, complex and function values
    cannot be encoded and make [Marshal] return an error; a string is
    encoded as a JSON string coerced to valid UTF-8, each invalid byte
    replaced by U+FFFD, with the HTML characters and the line separators
    escaped; a struct is encoded as an object of its exported fields in the
    order of the declaration. *)
Module Json.

(** The values [Marshal] is given, as reflection sees them. *)
Inductive value : Type :=
| VString (s : string)
| VBool (b : bool)
| VStruct (fields : list (string * value))
| VChan
| VFunc
| VComplex.

Definition hex (n : nat) : ascii :=
  match get n "0123456789abcdef" with
  | Some c => c
  | None => "0"%char
  end.

Definition backslash : ascii := "092"%char.
Definition dquote : ascii := "034"%char.

(** One byte below [utf8.RuneSelf]. *)
Definition escape_byte (b : ascii) : string :=
  let n := nat_of_ascii b in
  if (32 <=? n) && negb (n =? 92) && negb (n =? 34)
     && negb (n =? 60) && negb (n =? 62) && negb (n =? 38)
  then String b ""
  else if (n =? 92) || (n =? 34) then String backslash (String b "")
  else if n =? 10 then String backslash "n"
  else if n =? 13 then String backslash "r"
  else if n =? 9 then String backslash "t"
  else String backslash
         (String "u" (String "0" (String "0"
            (String (hex (n / 16)) (String (hex (n mod 16)) ""))))).

Definition between (lo hi : nat) (s : string) : bool :=
  match s with
  | String c _ => let n := nat_of_ascii c in (lo <=? n) && (n <=? hi)
  | EmptyString => false
  end.

Definition tail (s : string) : string :=
  match s with
  | String _ r => r
  | EmptyString => EmptyString
  end.

Definition cont (s : string) : bool := between 128 191 s.

(** [utf8.DecodeRuneInString] on a string that starts with the byte [n >=
    128] followed by [rest]: the width of the rune, or [0] for
    [(RuneError, 1)]. *)
Definition rune_width (n : nat) (rest : string) : nat :=
  if (194 <=? n) && (n <=? 223) then
    if cont rest then 2 else 0
  else if (224 <=? n) && (n <=? 239) then
    let lo := if n =? 224 then 160 else 128 in
    let hi := if n =? 237 then 159 else 191 in
    if between lo hi rest && cont (tail rest) then 3 else 0
  else if (240 <=? n) && (n <=? 244) then
    let lo := if n =? 240 then 144 else 128 in
    let hi := if n =? 244 then 143 else 191 in
    if between lo hi rest && cont (tail rest) && cont (tail (tail rest))
    then 4 else 0
  else 0.

(** U+2028 and U+2029 are the bytes E2 80 A8 and E2 80 A9. *)
Definition line_separator (n : nat) (rest : string) : option ascii :=
  match rest with
  | String c1 (String c2 _) =>
      if (n =? 226) && (nat_of_ascii c1 =? 128)
      then if nat_of_ascii c2 =? 168 then Some "8"%char
           else if nat_of_ascii c2 =? 169 then Some "9"%char
           else None
      else None
  | _ => None
  end.

Definition replacement : string :=
  String backslash "ufffd".

Fixpoint escape (skip : nat) (drop : bool) (s : string) : string :=
  match s with
  | EmptyString => EmptyString
  | String b rest =>
      match skip with
      | S k => if drop then escape k drop rest
               else String b (escape k drop rest)
      | O =>
          let n := nat_of_ascii b in
          if n <? 128 then (escape_byte b ++ escape 0 false rest)%string
          else
            match rune_width n rest with
            | O => (replacement ++ escape 0 false rest)%string
            | S k =>
                match line_separator n rest with
                | Some d =>
                    (String backslash (String "u" (String "2" (String "0"
                       (String "2" (String d ""))))) ++ escape k true rest)%string
                | None => String b (escape k false rest)
                end
            end
      end
  end.

Definition quote (s : string) : string :=
  String dquote (escape 0 false s ++ String dquote "")%string.

(** The members of an object, given the encoding of each field's value: the
    first field that cannot be encoded decides. *)
Fixpoint members (first : bool) (fs : list (string * (string + error)))
  : string + error :=
  match fs with
  | [] => inl ""
  | (name, inr e) :: _ => inr e
  | (name, inl sx) :: rest =>
      match members false rest with
      | inr e => inr e
      | inl sr =>
          inl ((if first then "" else ",") ++ quote name ++ ":"
               ++ sx ++ sr)%string
      end
  end.

Fixpoint encode (v : value) : string + error :=
  match v with
  | VString s => inl (quote s)
  | VBool b => inl (if b then "true" else "false")
  | VStruct fields =>
      match members true (map (fun f => (fst f, encode (snd f))) fields) with
      | inl body => inl ("{" ++ body ++ "}")%string
      | inr e => inr e
      end
  | VChan => inr (ExternalError "json: unsupported type: chan")
  | VFunc => inr (ExternalError "json: unsupported type: func")
  | VComplex => inr (ExternalError "json: unsupported type: complex128")
  end.

Definition Marshal (v : value) : string * option error :=
  match encode v with
  | inl out => (out, None)
  | inr e => ("", Some e)
  end.

End Json.

(** * text/template, as far as the composer uses it

    The templates of the repository are text with one kind of action, the
    field [{{.Name}}] of the data.  A parsed template is the list of its
    nodes; the data is what the callers of the repository pass for the
    [interface{}] argument: nil, a string, or a struct of string fields. *)
Module Template.

Inductive data : Type :=
| DNil
| DString (s : string)
| DStruct (fields : list (string * string)).

Inductive Node : Type :=
| TextNode (text : string)
| FieldNode (name : string).

Definition Template : Type := list Node.

Fixpoint field (name : string) (fields : list (string * string))
  : option string :=
  match fields with
  | [] => None
  | (k, v) :: rest => if String.eqb k name then Some v else field name rest
  end.

(** The action [{{.name}}]: the field of a struct that has it; an error on
    a struct that does not and on a string; on nil data the action has no
    value to print and [<no value>] is written. *)
Definition evalField (d : data) (name : string) : string + error :=
  match d with
  | DStruct fields =>
      match field name fields with
      | Some v => inl v
      | None => inr (ExternalError "template: can't evaluate field")
      end
  | DString _ => inr (ExternalError "template: can't evaluate field")
  | DNil => inl "<no value>"
  end.

(** What one node writes. *)
Definition node_output (d : data) (n : Node) : string + error :=
  match n with
  | TextNode text => inl text
  | FieldNode name => evalField d name
  end.

(** The walk over the nodes: each node writes to the writer as it is
    reached; the first error ends the walk and is returned, with what was
    written before it left in the writer. *)
Fixpoint walk (ns : list Node) (d : data) (wr : string)
  : string * option error :=
  match ns with
  | [] => (wr, None)
  | n :: rest =>
      match node_output d n with
      | inl out => walk rest d (wr ++ out)%string
      | inr e => (wr, Some e)
      end
  end.

(** [func (t *Template) Execute(wr io.Writer, data interface{}) error]: the
    writer after the call, and the error. *)
Definition Execute (t : Template) (wr : string) (d : data)
  : string * option error :=
  walk t d wr.

(** What an execution that reports [err] has written into an empty writer:
    the outputs of the nodes before the first one that fails, one after the
    other; of all the nodes when none fails. *)
Definition written_before_failure
  (t : Template) (d : data) (err : option error) (s : string) : Prop :=
  exists done rest outs,
    t = done ++ rest
    /\ Forall2 (fun n out => node_output d n = inl out) done outs
    /\ s = fold_right String.append "" outs
    /\ match err with
       | None => rest = []
       | Some e => exists n rest', rest = n :: rest'
                                   /\ node_output d n = inr e
       end.

(** The fields a template refers to are all there in a struct. *)
Definition fields_present (t : Template) (fields : list (string * string))
  : Prop :=
  Forall (fun n => match n with
                   | TextNode _ => True
                   | FieldNode name => field name fields <> None
                   end) t.

(** The text of a template with each action replaced by the field it names
    (nothing for a field that is not there). *)
Definition render (t : Template) (fields : list (string * string)) : string :=
  fold_right String.append ""
    (map (fun n => match n with
                   | TextNode text => text
                   | FieldNode name =>
                       match field name fields with
                       | Some v => v
                       | None => ""
                       end
                   end) t).

End Template.

(** * Package client *)
Module Client.

Import Template.

Definition MailServiceType : string := "mail".
Definition HttpMIMEBodyType : string := "application/json".

(** [type Email struct { Recipient, Subject, Message string }]. *)
Record Email : Type := {
  Recipient : string;
  Subject   : string;
  Message   : string
}.

(** [type SuricataMessageComposer struct { SubjectTemplate, MessageTemplate
    *template.Template }]. *)
Record SuricataMessageComposer : Type := {
  SubjectTemplate : Template;
  MessageTemplate : Template
}.

(** [func NewMailComposer(sbjTmp, msgTmp *template.Template)
    *SuricataMessageComposer]. *)
Definition NewMailComposer (sbjTmp msgTmp : Template)
  : SuricataMessageComposer :=
  {| SubjectTemplate := sbjTmp; MessageTemplate := msgTmp |}.

(** [func (mc *SuricataMessageComposer) ComposeSubject(data interface{})
    string]: a fresh buffer, the template executed into it with the error
    dropped, the buffer's content returned. *)
Definition ComposeSubject (mc : SuricataMessageComposer) (d : data) : string :=
  let subject := "" in
  let (subject', _) := Execute (SubjectTemplate mc) subject d in
  subject'.

(** [func (mc *SuricataMessageComposer) ComposeMessage(data interface{})
    string]. *)
Definition ComposeMessage (mc : SuricataMessageComposer) (d : data) : string :=
  let subject := "" in
  let (subject', _) := Execute (MessageTemplate mc) subject d in
  subject'.

(** The two templates the repository parses, in [NewSuricataMailClient],
    [NewNatsMailClient] and [TestMailComposer]:
    [Suricata: Registration confirmation] and
    [Please confirm ... with click on this link {{.ConfirmationLink}}]. *)
Definition subjectTemp : Template :=
  [TextNode "Suricata: Registration confirmation"].

Definition messageTemp : Template :=
  [TextNode "Please confirm the registration on Suricata Talk website with click on this link ";
   FieldNode "ConfirmationLink"].

(** [discovery.RegistryClient], of which the package calls
    [ServicesByName] only. *)
Record RegistryClient : Type := {
  ServicesByName : string -> list string * option error
}.

(** [type SuricataMailClient struct { discoveryClient
    discovery.RegistryClient }]; a nil interface value is [None]. *)
Record SuricataMailClient : Type := {
  discoveryClient : option RegistryClient
}.

Definition NewSuricataMailClient (disc : option RegistryClient)
  : SuricataMailClient :=
  {| discoveryClient := disc |}.

(** The [FakeRegistryClient] of the tests. *)
Definition FakeRegistryClient : RegistryClient :=
  {| ServicesByName := fun _ => (["127.0.0.1:3030"], None) |}.

(** A call returns, or panics (a method called on a nil interface). *)
Inductive outcome (A : Type) : Type :=
| Ret (a : A)
| Panic.
Arguments Ret {A} a.
Arguments Panic {A}.

(** [func (client *SuricataMailClient) IsConnected() (bool, error)]. *)
Definition IsConnected (client : SuricataMailClient) : bool * option error :=
  match discoveryClient client with
  | None => (false, Some ErrMailClientNotInitialized)
  | Some disc =>
      let (services, err) := ServicesByName disc MailServiceType in
      match err with
      | Some _ => (false, err)
      | None =>
          if List.length services =? 0 then (false, None) else (true, None)
      end
  end.

(** [func (client *SuricataMailClient) resolveUrl() (string, error)]; the
    index [mailURL[0]] is in range where it is reached. *)
Definition resolveUrl (client : SuricataMailClient)
  : outcome (string * option error) :=
  match discoveryClient client with
  | None => Panic
  | Some disc =>
      let (mailURL, err) := ServicesByName disc MailServiceType in
      match err with
      | Some _ => Ret ("", err)
      | None =>
          if List.length mailURL =? 0
          then Ret ("", Some ErrMailServiceNotFound)
          else Ret (("http://" ++ nth 0 mailURL "")%string, None)
      end
  end.

(** An [http.Post(url, contentType, body)]. *)
Record HttpRequest : Type := {
  url         : string;
  contentType : string;
  body        : string
}.

(** How reflection sees an [Email]: a struct of three string fields, none
    of them tagged, the type without a [MarshalJSON] method. *)
Definition Email_value (e : Email) : Json.value :=
  Json.VStruct [("Recipient", Json.VString (Recipient e));
                ("Subject", Json.VString (Subject e));
                ("Message", Json.VString (Message e))].

(** [json.Marshal(eMsg)] of the standard library. *)
Definition encoding_json_Marshal (e : Email) : string * option error :=
  Json.Marshal (Email_value e).

Section Collaborators.

(** [json.Marshal] at the type [Email], and [http.Post], whose response the
    client drops. *)
Variable json_Marshal : Email -> string * option error.
Variable http_Post : HttpRequest -> option error.

(** [func (client *SuricataMailClient) SendMail(recipient, subject, message
    string) error]: the requests posted, and the error returned. *)
Definition SendMail (client : SuricataMailClient)
  (recipient subject message : string)
  : outcome (list HttpRequest * option error) :=
  match resolveUrl client with
  | Panic => Panic
  | Ret (serviceURL, err) =>
      match err with
      | Some _ => Ret ([], err)
      | None =>
          let eMsg := {| Recipient := recipient;
                         Subject := subject;
                         Message := message |} in
          let (out, jsonError) := json_Marshal eMsg in
          match jsonError with
          | Some _ => Ret ([], err)
          | None =>
              let request := {| url := serviceURL;
                                contentType := HttpMIMEBodyType;
                                body := out |} in
              match http_Post request with
              | Some postErr => Ret ([request], Some postErr)
              | None => Ret ([request], None)
              end
          end
      end
  end.

(** [encodedConn.Publish(subject, v)] of the NATS connection. *)
Variable nats_Publish : string -> Email -> option error.

(** [func (client *NatsMailClient) SendMail(recipient, subject, message
    string) error]: what was published, and the error returned. *)
Definition NatsMailClient_SendMail (recipient subject message : string)
  : list (string * Email) * option error :=
  let eMsg := {| Recipient := recipient;
                 Subject := subject;
                 Message := message |} in
  let err := nats_Publish MailServiceType eMsg in
  ([(MailServiceType, eMsg)], err).

End Collaborators.

End Client.


(** * Package client, the two earlier versions

    Two earlier versions of the package differ from the one above in how
    [SuricataMailClient.SendMail] composes the [Email]; [resolveUrl] has the
    same text in the three. *)

(** The version before the present one: the client owns a composer and
    [SendMail] takes the subject and the message as data for it. *)
Module ClientWithComposer.

Import Template Client.

(** [type SuricataMailClient struct { discoveryClient
    discovery.RegistryClient; composer MessageComposer }]. *)
Record SuricataMailClient : Type := {
  discoveryClient : option RegistryClient;
  composer        : SuricataMessageComposer
}.

Definition NewSuricataMailClient (disc : option RegistryClient)
  : SuricataMailClient :=
  {| discoveryClient := disc;
     composer := {| SubjectTemplate := subjectTemp;
                    MessageTemplate := messageTemp |} |}.

Definition resolveUrl (client : SuricataMailClient)
  : outcome (string * option error) :=
  Client.resolveUrl (Client.NewSuricataMailClient (discoveryClient client)).

Section Collaborators.

Variable json_Marshal : Email -> string * option error.
Variable http_Post : HttpRequest -> option error.

(** [func (client *SuricataMailClient) SendMail(recipient string, subject,
    message interface{}) error]. *)
Definition SendMail (client : SuricataMailClient)
  (recipient : string) (subject message : data)
  : outcome (list HttpRequest * option error) :=
  match resolveUrl client with
  | Panic => Panic
  | Ret (serviceURL, err) =>
      match err with
      | Some _ => Ret ([], err)
      | None =>
          let eMsg :=
            {| Recipient := recipient;
               Subject := ComposeSubject (composer client) subject;
               Message := ComposeMessage (composer client) message |} in
          let (out, jsonError) := json_Marshal eMsg in
          match jsonError with
          | Some _ => Ret ([], err)
          | None =>
              let request := {| url := serviceURL;
                                contentType := HttpMIMEBodyType;
                                body := out |} in
              match http_Post request with
              | Some postErr => Ret ([request], Some postErr)
              | None => Ret ([request], None)
              end
          end
      end
  end.

End Collaborators.

End ClientWithComposer.

(** The first version: the client owns a composer, and [SendMail] writes
    the subject as a literal and leaves the message empty. *)
Module ClientFixedSubject.

Import Template Client.

Record SuricataMailClient : Type := {
  discoveryClient : option RegistryClient;
  composer        : SuricataMessageComposer
}.

Definition NewSuricataMailClient (disc : option RegistryClient)
  : SuricataMailClient :=
  {| discoveryClient := disc;
     composer := {| SubjectTemplate := subjectTemp;
                    MessageTemplate := messageTemp |} |}.

Definition resolveUrl (client : SuricataMailClient)
  : outcome (string * option error) :=
  Client.resolveUrl (Client.NewSuricataMailClient (discoveryClient client)).

Section Collaborators.

Variable json_Marshal : Email -> string * option error.
Variable http_Post : HttpRequest -> option error.

(** [func (client *SuricataMailClient) SendMail(recipient, subject, message
    string) error]. *)
Definition SendMail (client : SuricataMailClient)
  (recipient subject message : string)
  : outcome (list HttpRequest * option error) :=
  match resolveUrl client with
  | Panic => Panic
  | Ret (serviceUrl, err) =>
      match err with
      | Some _ => Ret ([], err)
      | None =>
          let eMsg := Build_Email recipient
                                  "Suricata: Registration confirmation"
                                  "" in
          let (out, jsonError) := json_Marshal eMsg in
          match jsonError with
          | Some _ => Ret ([], err)
          | None =>
              let request := {| url := serviceUrl;
                                contentType := HttpMIMEBodyType;
                                body := out |} in
              match http_Post request with
              | Some postErr => Ret ([request], Some postErr)
              | None => Ret ([request], None)
              end
          end
      end
  end.

End Collaborators.

End ClientFixedSubject.

(** * The dispatch engine: what a run guarantees *)
Section DispatchEngine.

Import Server.

Variable json_Decode : string -> mailStruct -> mailStruct * option error.

Local Abbreviation step := (Server.step json_Decode).
Local Abbreviation run := (Server.run json_Decode).
Local Abbreviation submitted := (Server.submitted json_Decode).
Local Abbreviation submitted_by := (Server.submitted_by json_Decode).
Local Abbreviation ingress := (Server.ingress json_Decode).

(** A method body returns the value [result] reads off it. *)
Lemma exec_result (p : Prog) : forall w w' r,
  exec p w = Some (w', r) -> r = result p.
Proof.
  induction p as [e | m k IH]; simpl; intros w w' r H.
  - now inversion H.
  - destruct (chan_send m w) as [w1 |]; [eauto | discriminate].
Qed.

(** What the engine keeps fixed and what it accumulates, for one completed
    channel send. *)
Lemma chan_send_spec (m : mailStruct) (w w' : World) (c : chan) :
  sendChannel (mailer w) = Some c ->
  List.length (buf c) <= cap c ->
  chan_send m w = Some w' ->
  sender (mailer w') = sender (mailer w)
  /\ (exists c', sendChannel (mailer w') = Some c' /\ cap c' = cap c
                 /\ List.length (buf c') <= cap c')
  /\ calls w' = calls w
  /\ pending w' = pending w ++ [message_of m]
  /\ returned w' = returned w
  /\ errlog w' = errlog w.
Proof.
  intros Hc Hle H. unfold chan_send in H. rewrite Hc in H.
  destruct (Nat.ltb (List.length (buf c)) (cap c)) eqn:Hlt.
  - apply Nat.ltb_lt in Hlt. inversion H; subst w'; clear H.
    unfold pending; simpl. rewrite Hc.
    repeat split; auto.
    + eexists; repeat split; simpl; auto. rewrite length_app; simpl; lia.
    + rewrite map_app, app_assoc. reflexivity.
  - destruct (worker w) eqn:Hw; try discriminate.
    destruct (buf c) eqn:Hb; try discriminate.
    inversion H; subst w'; clear H.
    unfold pending; simpl. rewrite Hc, Hw, Hb.
    repeat split; auto.
    exists c. rewrite Hb. repeat split; auto.
Qed.

(** One transition of a started engine: the sender and the capacity stay,
    the provider calls made and pending grow by exactly the calls expected
    for what the event submitted, and every ingress event records a nil
    return. *)
Lemma step_spec (w w' : World) (e : Event) :
  started w ->
  step w e = Some w' ->
  started w'
  /\ sender (mailer w') = sender (mailer w)
  /\ capacity w' = capacity w
  /\ calls w' ++ pending w'
     = (calls w ++ pending w)
       ++ map (expected (sender (mailer w))) (submitted_by e)
  /\ returned w' = returned w ++ map (fun _ => None) (submitted_by e).
Proof.
  intros (c & Hc & Hle) H.
  assert (Hsend : forall subject message recipient w1 r,
    exec (SendMail (mailer w) subject message recipient) w = Some (w1, r) ->
    started (record_return w1 r)
    /\ sender (mailer (record_return w1 r)) = sender (mailer w)
    /\ capacity (record_return w1 r) = capacity w
    /\ calls (record_return w1 r) ++ pending (record_return w1 r)
       = (calls w ++ pending w)
         ++ [expected (sender (mailer w)) (subject, message, recipient)]
    /\ returned (record_return w1 r) = returned w ++ [None]).
  { intros subject message recipient w1 r He.
    unfold SendMail in He. rewrite Hc in He. simpl in He.
    destruct (chan_send _ w) as [w2 |] eqn:Hs; [| discriminate].
    inversion He; subst w2 r; clear He.
    destruct (chan_send_spec _ _ _ _ Hc Hle Hs)
      as (Hsd & (c' & Hc' & Hcap & Hle') & Hcalls & Hpend & Hret & _).
    unfold started, capacity, pending in *; simpl.
    rewrite Hc'. rewrite Hc' in Hpend. rewrite Hc.
    repeat split; auto.
    - exists c'; auto.
    - rewrite Hcalls, Hpend. rewrite Hc. rewrite app_assoc. reflexivity.
    - now rewrite Hret. }
  destruct e as [subject message recipient | mail | body | | response id err | |];
    simpl in H.
  - destruct (exec _ w) as [[w1 r] |] eqn:He; [| discriminate].
    inversion H; subst w'; clear H. simpl. now apply Hsend.
  - unfold NatsMailerFunc in H.
    destruct (exec _ w) as [[w1 r] |] eqn:He; [| discriminate].
    inversion H; subst w'; clear H. simpl. now apply Hsend.
  - unfold HttpMailerFunc in H.
    destruct (exec _ w) as [[w1 r] |] eqn:He; [| discriminate].
    inversion H; subst w'; clear H. simpl. now apply Hsend.
  - destruct (worker w) eqn:Hw; try discriminate.
    rewrite Hc in H. destruct (buf c) as [| m rest] eqn:Hb; [discriminate |].
    inversion H; subst w'; clear H.
    unfold started, capacity, pending; simpl. rewrite Hc, Hw, Hb; simpl.
    rewrite !app_nil_r. repeat split; auto.
    eexists; split; [reflexivity |]. simpl in *. lia.
  - destruct (worker w) eqn:Hw; try discriminate.
    inversion H; subst w'; clear H.
    unfold started, capacity, pending, handle; simpl. rewrite Hc, Hw; simpl.
    rewrite !app_nil_r. repeat split; auto.
    + exists c; auto.
    + rewrite <- app_assoc. reflexivity.
  - inversion H; subst w'; clear H.
    unfold started, capacity, pending; simpl. rewrite Hc.
    rewrite !app_nil_r. repeat split; auto.
    exists c; auto.
  - destruct (worker w) eqn:Hw; try discriminate.
    destruct (ctxDone w); try discriminate.
    inversion H; subst w'; clear H.
    unfold started, capacity, pending; simpl. rewrite Hc, Hw.
    rewrite !app_nil_r. repeat split; auto.
    exists c; auto.
Qed.

(** The same along a run. *)
Lemma run_spec (tr : list Event) : forall w w',
  started w ->
  run w tr = Some w' ->
  started w'
  /\ sender (mailer w') = sender (mailer w)
  /\ capacity w' = capacity w
  /\ calls w' ++ pending w'
     = (calls w ++ pending w)
       ++ map (expected (sender (mailer w))) (submitted tr)
  /\ returned w' = returned w ++ map (fun _ => None) (submitted tr).
Proof.
  induction tr as [| e tr IH]; simpl; intros w w' Hst H.
  - inversion H; subst w'. rewrite !app_nil_r. auto.
  - destruct (step w e) as [w1 |] eqn:Hs; [| discriminate].
    destruct (step_spec _ _ _ Hst Hs) as (Hst1 & Hsd1 & Hcap1 & Hc1 & Hr1).
    destruct (IH _ _ Hst1 H) as (Hst' & Hsd' & Hcap' & Hc' & Hr').
    unfold Server.submitted in *. simpl.
    rewrite !map_app.
    repeat split; auto; try congruence.
    + rewrite Hc', Hc1, Hsd1. rewrite <- !app_assoc. reflexivity.
    + rewrite Hr', Hr1. rewrite <- !app_assoc. reflexivity.
Qed.

Lemma NewMailGun_started (domain apiKey sender_ : string) :
  started (NewMailGun domain apiKey sender_).
Proof. exists (make 0). simpl. auto. Qed.

(** An unbuffered channel holds nothing: what is pending is what the worker
    has in hand. *)
Lemma unbuffered_pending (w : World) :
  started w -> capacity w = 0 ->
  pending w = match worker w with
              | Handling m => [message_of m]
              | _ => []
              end.
Proof.
  intros (c & Hc & Hle) Hcap. unfold capacity in Hcap. unfold pending.
  rewrite Hc in *. rewrite Hcap in Hle.
  destruct (buf c); simpl in *; [now rewrite app_nil_r | lia].
Qed.

(** C1. On an engine started by [NewMailGun], after any run, the provider
    calls made so far, followed by at most one call the worker is about to
    make, are exactly one call per submitted message, in the order of
    submission, each with the engine's sender as sender, the submitted
    subject as subject, the submitted message as body and the submitted
    recipient as recipient; and the call the worker is about to make is made
    by its next step, whatever the provider answers. *)
Theorem SendMail_one_provider_call
  (domain apiKey sender_ : string) (tr : list Event) (w : World) :
  run (NewMailGun domain apiKey sender_) tr = Some w ->
  exists inflight,
    List.length inflight <= 1
    /\ calls w ++ inflight = map (expected sender_) (submitted tr)
    /\ (inflight = []
        \/ forall response id err,
             exists w', step w (EvProviderSend response id err) = Some w'
                        /\ calls w' = map (expected sender_) (submitted tr)).
Proof.
  intros H.
  destruct (run_spec _ _ _ (NewMailGun_started domain apiKey sender_) H)
    as (Hst & _ & Hcap & Hc & _).
  simpl in Hc. change (capacity (NewMailGun domain apiKey sender_)) with 0 in Hcap.
  rewrite (unbuffered_pending _ Hst Hcap) in Hc.
  destruct (worker w) as [| m |] eqn:Hw.
  - exists []. simpl; auto.
  - exists [message_of m]. simpl. repeat split; auto.
    right. intros response id err. rewrite Hw.
    eexists; split; [reflexivity |]. simpl. exact Hc.
  - exists []. simpl; auto.
Qed.

(** C4. [SendMail] returns [ErrMailerNotInitialized] exactly when the channel
    is unset, and nil whenever it is set; in every run of a started engine
    each completed [SendMail] has returned nil, whatever the provider
    answered to the worker in that run. *)
Theorem SendMail_error_iff_channel_unset :
  (forall mgm subject message recipient,
      result (SendMail mgm subject message recipient)
      = Some ErrMailerNotInitialized
      <-> sendChannel mgm = None)
  /\ (forall mgm subject message recipient,
         sendChannel mgm <> None ->
         result (SendMail mgm subject message recipient) = None)
  /\ (forall domain apiKey sender_ tr w,
         run (NewMailGun domain apiKey sender_) tr = Some w ->
         returned w = map (fun _ => None) (submitted tr)).
Proof.
  split; [| split].
  - intros mgm subject message recipient. unfold SendMail.
    destruct (sendChannel mgm); simpl; split; congruence.
  - intros mgm subject message recipient Hc. unfold SendMail.
    destruct (sendChannel mgm); simpl; congruence.
  - intros domain apiKey sender_ tr w H.
    destruct (run_spec _ _ _ (NewMailGun_started domain apiKey sender_) H)
      as (_ & _ & _ & _ & Hr).
    exact Hr.
Qed.

(** C8 (as the code has it). The recipient is carried unchanged from the
    ingress adapter through [SendMail] to the provider and is never
    checked: the recipients of the provider calls made or pending are the
    submitted recipients, one for one, so they are all non-empty exactly
    when the submitted recipients are. *)
Theorem recipient_forwarded_unchecked
  (domain apiKey sender_ : string) (tr : list Event) (w : World) :
  run (NewMailGun domain apiKey sender_) tr = Some w ->
  map msg_to (calls w ++ pending w)
  = map (fun t : string * string * string => [snd t]) (submitted tr)
  /\ (Forall (fun c => Forall (fun r => r <> "") (msg_to c))
             (calls w ++ pending w)
      <-> Forall (fun t : string * string * string => snd t <> "")
                 (submitted tr)).
Proof.
  intros H.
  destruct (run_spec _ _ _ (NewMailGun_started domain apiKey sender_) H)
    as (_ & _ & _ & Hc & _).
  simpl in Hc. rewrite Hc. clear Hc H.
  split.
  - rewrite map_map. apply map_ext. now intros [[subject message] recipient].
  - induction (submitted tr) as [| [[subject message] recipient] l IH];
      simpl; split; intros HF; try constructor; inversion HF; subst; simpl in *.
    + match goal with Hr : Forall _ [recipient] |- _ => now inversion Hr end.
    + now apply IH.
    + auto.
    + now apply IH.
Qed.

(** C9. Whatever sender the inbound envelope carried, every provider call
    made or pending on an engine started with [sender_] has [sender_] as its
    sender. *)
Theorem envelope_sender_discarded
  (domain apiKey sender_ : string) (tr : list Event) (w : World) :
  run (NewMailGun domain apiKey sender_) tr = Some w ->
  Forall (fun c => msg_from c = sender_) (calls w ++ pending w).
Proof.
  intros H.
  destruct (run_spec _ _ _ (NewMailGun_started domain apiKey sender_) H)
    as (_ & _ & _ & Hc & _).
  simpl in Hc. rewrite Hc. apply Forall_map, Forall_forall.
  now intros [[subject message] recipient] _.
Qed.

(** The worker looks at the context only between two messages: while it
    holds a message it cannot leave, and its send goes through after
    [Close]. *)
Lemma Close_does_not_interrupt (w w1 : World) (m : mailStruct) :
  worker w = Handling m ->
  step w EvClose = Some w1 ->
  step w1 EvDone = None
  /\ forall response id err,
       exists w2, step w1 (EvProviderSend response id err) = Some w2
                  /\ calls w2 = calls w ++ [message_of m].
Proof.
  intros Hw H. simpl in H. inversion H; subst w1; clear H. simpl.
  rewrite Hw. split; [reflexivity |].
  intros. eexists; split; reflexivity.
Qed.

End DispatchEngine.

(** Closed runs of the engine. *)

Lemma SendMail_one_provider_call_witness :
  exists w,
    Server.run Server.json_Decode_no_value
      (Server.NewMailGun "example.org" "key" "info@suricata.com")
      Server.trace_two_submissions
    = Some w
    /\ exists inflight,
         List.length inflight <= 1
         /\ Server.calls w ++ inflight
            = [Server.NewMessage "info@suricata.com" "Hi" "Hello" ["a@b.com"];
               Server.NewMessage "info@suricata.com" "Registration" "Welcome"
                                 ["c@d.org"]]
         /\ (inflight = []
             \/ forall response id err,
                  exists w',
                    Server.step Server.json_Decode_no_value w
                      (Server.EvProviderSend response id err) = Some w'
                    /\ Server.calls w'
                       = [Server.NewMessage "info@suricata.com" "Hi" "Hello"
                                            ["a@b.com"];
                          Server.NewMessage "info@suricata.com" "Registration"
                                            "Welcome" ["c@d.org"]]).
Proof.
  eexists; split; [reflexivity |].
  exact (SendMail_one_provider_call Server.json_Decode_no_value
           "example.org" "key" "info@suricata.com"
           Server.trace_two_submissions _ eq_refl).
Defined.

Lemma SendMail_error_iff_channel_unset_witness :
  exists w,
    Server.run Server.json_Decode_no_value
      (Server.NewMailGun "example.org" "key" "info@suricata.com")
      Server.trace_provider_errors
    = Some w
    /\ Server.returned w = [None; None]
    /\ Server.errlog w = [ExternalError "mailgun: 401";
                          ExternalError "mailgun: 401"].
Proof.
  eexists; split; [reflexivity |]. split; [| reflexivity].
  exact (proj2 (proj2 (SendMail_error_iff_channel_unset
                         Server.json_Decode_no_value))
           "example.org" "key" "info@suricata.com"
           Server.trace_provider_errors _ eq_refl).
Defined.

(** A mailer that was never started answers [ErrMailerNotInitialized] and
    nothing reaches a provider. *)
Lemma SendMail_unstarted :
  Server.run Server.json_Decode_no_value
    (Server.unstarted "info@suricata.com")
    [Server.EvSendMail "Hi" "Hello" "a@b.com"]
  = Some {| Server.mailer := {| Server.sendChannel := None;
                                Server.sender := "info@suricata.com" |};
            Server.worker := Server.Exited;
            Server.ctxDone := false;
            Server.calls := [];
            Server.errlog := [];
            Server.returned := [Some ErrMailerNotInitialized] |}.
Proof. reflexivity. Qed.

(** C8, as stated, fails: an envelope with an empty recipient, delivered
    over NATS, is handed through [SendMail] and the provider is called with
    the empty recipient. *)
Lemma empty_recipient_reaches_provider :
  exists w,
    Server.run Server.json_Decode_no_value
      (Server.NewMailGun "example.org" "key" "info@suricata.com")
      Server.trace_empty_recipient
    = Some w
    /\ Server.calls w
       = [Server.NewMessage "info@suricata.com" "Hi" "Hello" [""]].
Proof. eexists; split; reflexivity. Qed.

Lemma recipient_forwarded_unchecked_witness :
  exists w,
    Server.run Server.json_Decode_no_value
      (Server.NewMailGun "example.org" "key" "info@suricata.com")
      Server.trace_provider_errors
    = Some w
    /\ map Server.msg_to (Server.calls w ++ Server.pending w)
       = [["a@b.com"]; [""]].
Proof.
  eexists; split; [reflexivity |].
  exact (proj1 (recipient_forwarded_unchecked Server.json_Decode_no_value
                  "example.org" "key" "info@suricata.com"
                  Server.trace_provider_errors _ eq_refl)).
Defined.

Lemma envelope_sender_discarded_witness :
  exists w,
    Server.run Server.json_Decode_no_value
      (Server.NewMailGun "example.org" "key" "info@suricata.com")
      Server.trace_foreign_sender
    = Some w
    /\ Server.calls w
       = [Server.NewMessage "info@suricata.com" "Hi" "Hello" ["a@b.com"]]
    /\ Forall (fun c => Server.msg_from c = "info@suricata.com")
              (Server.calls w ++ Server.pending w).
Proof.
  eexists; split; [reflexivity |]. split; [reflexivity |].
  exact (envelope_sender_discarded Server.json_Decode_no_value
           "example.org" "key" "info@suricata.com"
           Server.trace_foreign_sender _ eq_refl).
Defined.

(** * The client: resolution, composition, sending *)

Lemma string_app_nil_r (s : string) : (s ++ "")%string = s.
Proof. induction s as [| c s IH]; simpl; congruence. Qed.

Lemma string_app_assoc (a b c : string) :
  ((a ++ b) ++ c)%string = (a ++ (b ++ c))%string.
Proof. induction a as [| x a IH]; simpl; congruence. Qed.

(** C5. With a directory in place: when the directory call succeeds with an
    empty list, [resolveUrl] returns no address and
    [ErrMailServiceNotFound]; when the directory call fails, [resolveUrl]
    returns no address and that very error. *)
Theorem resolveUrl_errors
  (client : Client.SuricataMailClient) (disc : Client.RegistryClient) :
  Client.discoveryClient client = Some disc ->
  (Client.ServicesByName disc Client.MailServiceType = ([], None) ->
   Client.resolveUrl client = Client.Ret ("", Some ErrMailServiceNotFound))
  /\ (forall l e,
         Client.ServicesByName disc Client.MailServiceType = (l, Some e) ->
         Client.resolveUrl client = Client.Ret ("", Some e)).
Proof.
  intros Hd. unfold Client.resolveUrl. rewrite Hd. split.
  - intros H. now rewrite H.
  - intros l e H. now rewrite H.
Qed.

Lemma resolveUrl_errors_witness :
  Client.resolveUrl
    (Client.NewSuricataMailClient
       (Some {| Client.ServicesByName := fun _ => ([], None) |}))
  = Client.Ret ("", Some ErrMailServiceNotFound)
  /\ Client.resolveUrl
       (Client.NewSuricataMailClient
          (Some {| Client.ServicesByName :=
                     fun _ => ([], Some (ExternalError "etcd: unreachable")) |}))
     = Client.Ret ("", Some (ExternalError "etcd: unreachable")).
Proof.
  split.
  - exact (proj1 (resolveUrl_errors
                    (Client.NewSuricataMailClient
                       (Some {| Client.ServicesByName := fun _ => ([], None) |}))
                    _ eq_refl) eq_refl).
  - exact (proj2 (resolveUrl_errors
                    (Client.NewSuricataMailClient
                       (Some {| Client.ServicesByName :=
                                  fun _ => ([], Some (ExternalError
                                                        "etcd: unreachable")) |}))
                    _ eq_refl) _ _ eq_refl).
Defined.

(** C6. With a directory in place that answers a non-empty list and no
    error, [resolveUrl] returns the URL of the first address of the list, in
    the order the directory returned it, and no error. *)
Theorem resolveUrl_first_address
  (client : Client.SuricataMailClient) (disc : Client.RegistryClient)
  (first : string) (others : list string) :
  Client.discoveryClient client = Some disc ->
  Client.ServicesByName disc Client.MailServiceType = (first :: others, None) ->
  Client.resolveUrl client = Client.Ret (("http://" ++ first)%string, None).
Proof.
  intros Hd H. unfold Client.resolveUrl. now rewrite Hd, H.
Qed.

(** The directory of the tests, which answers [127.0.0.1:3030]. *)
Lemma resolveUrl_first_address_witness :
  Client.resolveUrl (Client.NewSuricataMailClient
                       (Some Client.FakeRegistryClient))
  = Client.Ret ("http://127.0.0.1:3030", None).
Proof.
  exact (resolveUrl_first_address
           (Client.NewSuricataMailClient (Some Client.FakeRegistryClient))
           Client.FakeRegistryClient "127.0.0.1:3030" [] eq_refl eq_refl).
Defined.

(** The walk writes after what the writer holds, and writes the outputs of
    the nodes it gets through. *)
Lemma walk_written (d : Template.data) (ns : list Template.Node) :
  forall wr,
  exists done rest outs,
    ns = done ++ rest
    /\ Forall2 (fun n out => Template.node_output d n = inl out) done outs
    /\ fst (Template.walk ns d wr)
       = (wr ++ fold_right String.append "" outs)%string
    /\ match snd (Template.walk ns d wr) with
       | None => rest = []
       | Some e => exists n rest', rest = n :: rest'
                                   /\ Template.node_output d n = inr e
       end.
Proof.
  induction ns as [| n ns IH]; intros wr; simpl.
  - exists [], [], []. simpl. rewrite string_app_nil_r. auto.
  - destruct (Template.node_output d n) as [out | e] eqn:Hn.
    + destruct (IH (wr ++ out)%string) as (done & rest & outs & -> & HF & Hw & He).
      exists (n :: done), rest, (out :: outs). simpl.
      rewrite Hw, string_app_assoc. repeat split; auto.
    + exists [], (n :: ns), []. simpl. rewrite string_app_nil_r.
      repeat split; eauto.
Qed.

(** C7. For every composer and every data value, [ComposeSubject] and
    [ComposeMessage] return a string and nothing else: whether the
    execution of the template succeeds or fails, the string is what the
    execution wrote, that is the outputs of the nodes before the failing
    one (nothing when the first node fails, everything when none does); the
    error of the execution is not part of what the caller gets. *)
Theorem Compose_returns_what_was_written
  (mc : Client.SuricataMessageComposer) (d : Template.data) :
  Template.written_before_failure
    (Client.SubjectTemplate mc) d
    (snd (Template.Execute (Client.SubjectTemplate mc) "" d))
    (Client.ComposeSubject mc d)
  /\ Template.written_before_failure
       (Client.MessageTemplate mc) d
       (snd (Template.Execute (Client.MessageTemplate mc) "" d))
       (Client.ComposeMessage mc d).
Proof.
  unfold Client.ComposeSubject, Client.ComposeMessage, Template.Execute.
  split.
  - destruct (walk_written d (Client.SubjectTemplate mc) "")
      as (done & rest & outs & Ht & HF & Hw & He).
    destruct (Template.walk (Client.SubjectTemplate mc) d "") as [s e].
    exists done, rest, outs. simpl in *. auto.
  - destruct (walk_written d (Client.MessageTemplate mc) "")
      as (done & rest & outs & Ht & HF & Hw & He).
    destruct (Template.walk (Client.MessageTemplate mc) d "") as [s e].
    exists done, rest, outs. simpl in *. auto.
Qed.

(** The composer of the tests on the data of the tests, and on data that
    lacks the field: the text before the action is what comes back. *)
Lemma TestMailComposer :
  let composer := Client.NewMailComposer Client.subjectTemp Client.messageTemp in
  Client.ComposeMessage composer
    (Template.DStruct [("ConfirmationLink", "http://127.0.0.1:8080/confirm")])
  = "Please confirm the registration on Suricata Talk website with click on this link http://127.0.0.1:8080/confirm"
  /\ Client.ComposeSubject composer (Template.DStruct [])
     = "Suricata: Registration confirmation"
  /\ Client.ComposeMessage composer (Template.DStruct [])
     = "Please confirm the registration on Suricata Talk website with click on this link "
  /\ snd (Template.Execute Client.messageTemp "" (Template.DStruct []))
     = Some (ExternalError "template: can't evaluate field")
  /\ Client.ComposeMessage
       (Client.NewMailComposer Client.subjectTemp
          [Template.FieldNode "ConfirmationLink"])
       (Template.DString "Message")
     = ""
  /\ Client.ComposeMessage composer Template.DNil
     = "Please confirm the registration on Suricata Talk website with click on this link <no value>".
Proof. repeat split. Qed.

(** The branch of [SendMail] that tests [jsonError], for a serializer that
    could report an error: it returns [err], the error variable of the
    resolution, which is nil at that point, so that the caller would get nil
    and nothing would be posted.  With [json.Marshal] of the standard
    library the branch is never taken, an [Email] being three strings
    ([Email_marshal_ok] below). *)
Theorem SendMail_drops_serialization_error
  (json_Marshal : Client.Email -> string * option error)
  (http_Post : Client.HttpRequest -> option error)
  (client : Client.SuricataMailClient)
  (serviceURL recipient subject message out : string) (jsonError : error) :
  Client.resolveUrl client = Client.Ret (serviceURL, None) ->
  json_Marshal (Client.Build_Email recipient subject message)
  = (out, Some jsonError) ->
  Client.SendMail json_Marshal http_Post client recipient subject message
  = Client.Ret ([], None).
Proof.
  intros Hr Hj. unfold Client.SendMail. now rewrite Hr, Hj.
Qed.

Lemma SendMail_drops_serialization_error_witness :
  Client.SendMail
    (fun _ => ("", Some (ExternalError "json: error calling MarshalJSON")))
    (fun _ => None)
    (Client.NewSuricataMailClient (Some Client.FakeRegistryClient))
    "sohlich@gmail.com" "Subj" "Message"
  = Client.Ret ([], None).
Proof.
  exact (SendMail_drops_serialization_error
           (fun _ => ("", Some (ExternalError "json: error calling MarshalJSON")))
           (fun _ => None)
           (Client.NewSuricataMailClient (Some Client.FakeRegistryClient))
           "http://127.0.0.1:3030" "sohlich@gmail.com" "Subj" "Message" ""
           (ExternalError "json: error calling MarshalJSON")
           eq_refl eq_refl).
Defined.

(** The two earlier versions of [SendMail] return [err] in the same place. *)
Lemma SendMail_drops_serialization_error_other_versions :
  ClientWithComposer.SendMail
    (fun _ => ("", Some (ExternalError "json: error calling MarshalJSON")))
    (fun _ => None)
    (ClientWithComposer.NewSuricataMailClient (Some Client.FakeRegistryClient))
    "sohlich@gmail.com" (Template.DString "Subj") (Template.DString "Message")
  = Client.Ret ([], None)
  /\ ClientFixedSubject.SendMail
       (fun _ => ("", Some (ExternalError "json: error calling MarshalJSON")))
       (fun _ => None)
       (ClientFixedSubject.NewSuricataMailClient
          (Some Client.FakeRegistryClient))
       "sohlich@gmail.com" "Subj" "Message"
     = Client.Ret ([], None).
Proof. split; reflexivity. Qed.

(** C3, as stated, fails: with the directory of the tests and a server that
    accepts the request, [SendMail "sohlich@gmail.com" "Subj" "Message"]
    posts the JSON document of the [Email] made of its three arguments,
    which is not the document of the [Email] whose subject and message the
    composer renders from these arguments. *)
Lemma SendMail_does_not_compose :
  let composer := Client.NewMailComposer Client.subjectTemp Client.messageTemp in
  let sent := Client.Build_Email "sohlich@gmail.com" "Subj" "Message" in
  let composed :=
    Client.Build_Email "sohlich@gmail.com"
      (Client.ComposeSubject composer (Template.DString "Subj"))
      (Client.ComposeMessage composer (Template.DString "Message")) in
  Client.SendMail Client.encoding_json_Marshal (fun _ => None)
    (Client.NewSuricataMailClient (Some Client.FakeRegistryClient))
    "sohlich@gmail.com" "Subj" "Message"
  = Client.Ret ([{| Client.url := "http://127.0.0.1:3030";
                    Client.contentType := "application/json";
                    Client.body := fst (Client.encoding_json_Marshal sent) |}],
                None)
  /\ Client.Subject composed = "Suricata: Registration confirmation"
  /\ Client.Message composed
     = "Please confirm the registration on Suricata Talk website with click on this link "
  /\ fst (Client.encoding_json_Marshal sent)
     <> fst (Client.encoding_json_Marshal composed).
Proof.
  repeat split. vm_compute. discriminate.
Qed.

(** C3 (as the code has it). Once resolution and serialization have
    succeeded, [SuricataMailClient.SendMail] posts, to the resolved URL and
    as [application/json], the serialization of the [Email] whose recipient,
    subject and message are its three arguments as they are, and returns
    what the post returns; [NatsMailClient.SendMail] publishes that [Email]
    on the topic [mail].  No template is rendered on the way. *)
Theorem SendMail_sends_arguments_verbatim
  (json_Marshal : Client.Email -> string * option error)
  (http_Post : Client.HttpRequest -> option error)
  (nats_Publish : string -> Client.Email -> option error)
  (client : Client.SuricataMailClient)
  (serviceURL recipient subject message out : string) :
  Client.resolveUrl client = Client.Ret (serviceURL, None) ->
  json_Marshal (Client.Build_Email recipient subject message) = (out, None) ->
  let request := {| Client.url := serviceURL;
                    Client.contentType := "application/json";
                    Client.body := out |} in
  Client.SendMail json_Marshal http_Post client recipient subject message
  = Client.Ret ([request], http_Post request)
  /\ Client.NatsMailClient_SendMail nats_Publish recipient subject message
     = ([("mail", Client.Build_Email recipient subject message)],
        nats_Publish "mail" (Client.Build_Email recipient subject message)).
Proof.
  intros Hr Hj request. unfold Client.SendMail. rewrite Hr, Hj.
  fold request. split; [| reflexivity].
  change Client.HttpMIMEBodyType with "application/json".
  fold request. now destruct (http_Post request).
Qed.

Lemma SendMail_sends_arguments_verbatim_witness :
  let sent := Client.Build_Email "sohlich@gmail.com" "Subj" "Message" in
  let request :=
    {| Client.url := "http://127.0.0.1:3030";
       Client.contentType := "application/json";
       Client.body := fst (Client.encoding_json_Marshal sent) |} in
  Client.SendMail Client.encoding_json_Marshal
    (fun _ => Some (ExternalError "connection refused"))
    (Client.NewSuricataMailClient (Some Client.FakeRegistryClient))
    "sohlich@gmail.com" "Subj" "Message"
  = Client.Ret ([request], Some (ExternalError "connection refused"))
  /\ Client.NatsMailClient_SendMail (fun _ _ => None)
       "sohlich@gmail.com" "Subj" "Message"
     = ([("mail", sent)], None).
Proof.
  exact (SendMail_sends_arguments_verbatim
           Client.encoding_json_Marshal
           (fun _ => Some (ExternalError "connection refused"))
           (fun _ _ => None)
           (Client.NewSuricataMailClient (Some Client.FakeRegistryClient))
           "http://127.0.0.1:3030" "sohlich@gmail.com" "Subj" "Message"
           (fst (Client.encoding_json_Marshal
                   (Client.Build_Email "sohlich@gmail.com" "Subj" "Message")))
           eq_refl eq_refl).
Defined.

(** The version with the composer does render: its [Email] has the subject
    and the message the composer makes of the data. *)
Lemma SendMail_with_composer_composes
  (json_Marshal : Client.Email -> string * option error)
  (http_Post : Client.HttpRequest -> option error)
  (client : ClientWithComposer.SuricataMailClient)
  (serviceURL recipient out : string) (subject message : Template.data) :
  ClientWithComposer.resolveUrl client = Client.Ret (serviceURL, None) ->
  json_Marshal
    (Client.Build_Email recipient
       (Client.ComposeSubject (ClientWithComposer.composer client) subject)
       (Client.ComposeMessage (ClientWithComposer.composer client) message))
  = (out, None) ->
  let request := {| Client.url := serviceURL;
                    Client.contentType := "application/json";
                    Client.body := out |} in
  ClientWithComposer.SendMail json_Marshal http_Post client
    recipient subject message
  = Client.Ret ([request], http_Post request).
Proof.
  intros Hr Hj request. unfold ClientWithComposer.SendMail. rewrite Hr, Hj.
  change Client.HttpMIMEBodyType with "application/json".
  fold request. now destruct (http_Post request).
Qed.

(** The first version sends the same [Email] whatever subject and message
    it is called with. *)
Lemma SendMail_fixed_subject_ignores_arguments
  (json_Marshal : Client.Email -> string * option error)
  (http_Post : Client.HttpRequest -> option error)
  (client : ClientFixedSubject.SuricataMailClient)
  (recipient subject message subject' message' : string) :
  ClientFixedSubject.SendMail json_Marshal http_Post client
    recipient subject message
  = ClientFixedSubject.SendMail json_Marshal http_Post client
      recipient subject' message'.
Proof. reflexivity. Qed.

(** [json.Marshal] of a struct whose fields are all strings succeeds. *)
Lemma members_of_strings (fs : list (string * string)) :
  forall first, exists body,
    Json.members first
      (map (fun f => (fst f, Json.encode (snd f)))
           (map (fun f => (fst f, Json.VString (snd f))) fs))
    = inl body.
Proof.
  induction fs as [| [name v] fs IH]; intros first; simpl.
  - eauto.
  - destruct (IH false) as (body & Hb). rewrite Hb. eauto.
Qed.

Lemma encode_string_fields (fs : list (string * string)) :
  exists out,
    Json.encode (Json.VStruct (map (fun f => (fst f, Json.VString (snd f))) fs))
    = inl out.
Proof.
  destruct (members_of_strings fs true) as (body & Hb).
  simpl. rewrite Hb. eauto.
Qed.

(** C10. [json.Marshal] of an [Email] never reports an error, so the branch
    of [SendMail] that tests [jsonError] is never taken: what [SendMail]
    does and returns is decided by the resolution and by the post alone. *)
Theorem SendMail_serialization_never_fails
  (http_Post : Client.HttpRequest -> option error)
  (client : Client.SuricataMailClient)
  (recipient subject message : string) :
  snd (Client.encoding_json_Marshal
         (Client.Build_Email recipient subject message)) = None
  /\ Client.SendMail Client.encoding_json_Marshal http_Post client
       recipient subject message
     = match Client.resolveUrl client with
       | Client.Panic => Client.Panic
       | Client.Ret (_, Some e) => Client.Ret ([], Some e)
       | Client.Ret (serviceURL, None) =>
           let request :=
             {| Client.url := serviceURL;
                Client.contentType := "application/json";
                Client.body :=
                  fst (Client.encoding_json_Marshal
                         (Client.Build_Email recipient subject message)) |} in
           Client.Ret ([request], http_Post request)
       end.
Proof.
  assert (Hm : exists out,
             Client.encoding_json_Marshal
               (Client.Build_Email recipient subject message) = (out, None)).
  { unfold Client.encoding_json_Marshal, Json.Marshal, Client.Email_value.
    destruct (encode_string_fields
                [("Recipient", recipient); ("Subject", subject);
                 ("Message", message)]) as (out & Ho).
    simpl map in Ho. simpl Client.Recipient. simpl Client.Subject.
    simpl Client.Message. rewrite Ho. eauto. }
  destruct Hm as (out & Hm). rewrite Hm. split; [reflexivity |].
  unfold Client.SendMail.
  destruct (Client.resolveUrl client) as [[serviceURL [e |]] |]; auto.
  rewrite Hm. simpl.
  change Client.HttpMIMEBodyType with "application/json".
  now destruct (http_Post _).
Qed.

(** The earlier [SendMail] hands the worker a struct whose [Message] is the
    subject and whose [Subject] is the message, so that the provider message
    made of it has the two exchanged; the present one does not. *)
Lemma SendMail_legacy_transposes
  (mgm : Server.MailGunMailer) (c : Server.chan)
  (subject message recipient : string) :
  Server.sendChannel mgm = Some c ->
  map Server.message_of
      (Server.sends (ServerLegacy.SendMail mgm subject message recipient))
  = [Server.NewMessage (Server.sender mgm) message subject [recipient]]
  /\ map Server.message_of
         (Server.sends (Server.SendMail mgm subject message recipient))
     = [Server.NewMessage (Server.sender mgm) subject message [recipient]].
Proof.
  intros Hc. unfold ServerLegacy.SendMail, Server.SendMail. rewrite Hc.
  split; reflexivity.
Qed.

Lemma SendMail_legacy_transposes_witness :
  map Server.message_of
      (Server.sends
         (ServerLegacy.SendMail
            {| Server.sendChannel := Some (Server.make 0);
               Server.sender := "info@suricata.com" |}
            "Hi" "Hello" "a@b.com"))
  = [Server.NewMessage "info@suricata.com" "Hello" "Hi" ["a@b.com"]].
Proof.
  exact (proj1 (SendMail_legacy_transposes
                  {| Server.sendChannel := Some (Server.make 0);
                     Server.sender := "info@suricata.com" |}
                  (Server.make 0) "Hi" "Hello" "a@b.com" eq_refl)).
Defined.

Lemma Close_does_not_interrupt_witness :
  let held := Server.Build_mailStruct "info@suricata.com" "Hello" "Hi"
                                      "a@b.com" in
  let w := {| Server.mailer := {| Server.sendChannel := Some (Server.make 0);
                                  Server.sender := "info@suricata.com" |};
              Server.worker := Server.Handling held;
              Server.ctxDone := false;
              Server.calls := [];
              Server.errlog := [];
              Server.returned := [None] |} in
  let w1 := {| Server.mailer := Server.mailer w;
               Server.worker := Server.worker w;
               Server.ctxDone := true;
               Server.calls := Server.calls w;
               Server.errlog := Server.errlog w;
               Server.returned := Server.returned w |} in
  Server.run Server.json_Decode_no_value
    (Server.NewMailGun "example.org" "key" "info@suricata.com")
    [Server.EvSendMail "Hi" "Hello" "a@b.com"]
  = Some w
  /\ Server.step Server.json_Decode_no_value w Server.EvClose = Some w1
  /\ Server.step Server.json_Decode_no_value w1 Server.EvDone = None
  /\ forall response id err,
       exists w2,
         Server.step Server.json_Decode_no_value w1
           (Server.EvProviderSend response id err) = Some w2
         /\ Server.calls w2
            = [Server.NewMessage "info@suricata.com" "Hi" "Hello"
                                 ["a@b.com"]].
Proof.
  intros held w w1. split; [reflexivity |]. split; [reflexivity |].
  exact (Close_does_not_interrupt Server.json_Decode_no_value w w1 held
           eq_refl eq_refl).
Defined.

Lemma SendMail_with_composer_composes_witness :
  let composed :=
    Client.Build_Email "sohlich@gmail.com"
      "Suricata: Registration confirmation"
      "Please confirm the registration on Suricata Talk website with click on this link http://127.0.0.1:8080/confirm" in
  ClientWithComposer.SendMail Client.encoding_json_Marshal (fun _ => None)
    (ClientWithComposer.NewSuricataMailClient (Some Client.FakeRegistryClient))
    "sohlich@gmail.com" (Template.DStruct [])
    (Template.DStruct
       [("ConfirmationLink", "http://127.0.0.1:8080/confirm")])
  = Client.Ret ([{| Client.url := "http://127.0.0.1:3030";
                    Client.contentType := "application/json";
                    Client.body :=
                      fst (Client.encoding_json_Marshal composed) |}],
                None).
Proof.
  exact (SendMail_with_composer_composes
           Client.encoding_json_Marshal (fun _ => None)
           (ClientWithComposer.NewSuricataMailClient
              (Some Client.FakeRegistryClient))
           "http://127.0.0.1:3030" "sohlich@gmail.com"
           (fst (Client.encoding_json_Marshal
                   (Client.Build_Email "sohlich@gmail.com"
                      "Suricata: Registration confirmation"
                      "Please confirm the registration on Suricata Talk website with click on this link http://127.0.0.1:8080/confirm")))
           (Template.DStruct [])
           (Template.DStruct
              [("ConfirmationLink", "http://127.0.0.1:8080/confirm")])
           eq_refl eq_refl).
Defined.

(** * The dispatch engine: the worker, the log and cancellation *)
Section DispatchEngineLifecycle.

Import Server.

Variable json_Decode : string -> mailStruct -> mailStruct * option error.

Local Abbreviation step := (Server.step json_Decode).
Local Abbreviation run := (Server.run json_Decode).
Local Abbreviation submitted := (Server.submitted json_Decode).
Local Abbreviation submitted_by := (Server.submitted_by json_Decode).
Local Abbreviation ingress := (Server.ingress json_Decode).

(** A completed channel send leaves the log, the context, the provider
    calls and the returned values alone; the worker either stays as it is or
    takes the value over from its [select]. *)
Lemma chan_send_frame (m : mailStruct) (w w' : World) :
  chan_send m w = Some w' ->
  errlog w' = errlog w /\ ctxDone w' = ctxDone w /\ calls w' = calls w
  /\ returned w' = returned w
  /\ sender (mailer w') = sender (mailer w)
  /\ (worker w' = worker w
      \/ (worker w = Waiting /\ worker w' = Handling m
          /\ capacity w = 0 /\ mailer w' = mailer w)).
Proof.
  unfold chan_send, capacity. destruct (sendChannel (mailer w)) as [c |] eqn:Hc;
    [| discriminate].
  destruct (Nat.ltb (List.length (buf c)) (cap c)) eqn:Hlt.
  - intros H; inversion H; subst w'; simpl. repeat split; auto.
  - destruct (worker w) eqn:Hw; try discriminate.
    destruct (buf c) eqn:Hb; try discriminate.
    intros H; inversion H; subst w'; simpl. repeat split; auto.
    right. repeat split; auto.
    apply Nat.ltb_ge in Hlt. simpl in Hlt. lia.
Qed.

(** The three ingress events run [SendMail] on the triple they submit. *)
Lemma ingress_is_SendMail (mgm : MailGunMailer) (e : Event) (p : Prog) :
  ingress mgm e = Some p ->
  exists subject message recipient,
    p = SendMail mgm subject message recipient
    /\ submitted_by e = [(subject, message, recipient)]
    /\ forall w, mailer w = mgm ->
         step w e = match exec p w with
                    | Some (w', r) => Some (record_return w' r)
                    | None => None
                    end.
Proof.
  destruct e; simpl; intros H; inversion H; subst p; clear H;
    unfold NatsMailerFunc, HttpMailerFunc;
    do 3 eexists; repeat split; intros w <-; reflexivity.
Qed.

(** One transition and the log, the context and the worker. *)
Lemma step_frame (w w' : World) (e : Event) :
  step w e = Some w' ->
  errlog w' = errlog w ++ provider_errors [e]
  /\ ctxDone w' = (ctxDone w || closed [e])%bool
  /\ (worker w' = Exited -> worker w = Exited \/ ctxDone w = true)
  /\ (worker w = Exited -> worker w' = Exited /\ calls w' = calls w).
Proof.
  assert (Hsend : forall subject message recipient w1 r,
    exec (SendMail (mailer w) subject message recipient) w = Some (w1, r) ->
    errlog (record_return w1 r) = errlog w ++ []
    /\ ctxDone (record_return w1 r) = (ctxDone w || false)%bool
    /\ (worker (record_return w1 r) = Exited ->
        worker w = Exited \/ ctxDone w = true)
    /\ (worker w = Exited ->
        worker (record_return w1 r) = Exited
        /\ calls (record_return w1 r) = calls w)).
  { intros subject message recipient w1 r. unfold SendMail.
    destruct (sendChannel (mailer w)); simpl.
    - destruct (chan_send _ w) as [w2 |] eqn:Hs; [| discriminate].
      intros H; inversion H; subst w2 r; clear H.
      destruct (chan_send_frame _ _ _ Hs)
        as (He & Hd & Hc & _ & _ & [Hw | (Hw & Hw' & _)]); simpl;
        rewrite He, Hd, app_nil_r, orb_false_r; repeat split; auto;
          try congruence; intros Hx; rewrite Hw in *; auto; try congruence;
          discriminate.
    - intros H; inversion H; subst w1 r; simpl.
      rewrite app_nil_r, orb_false_r. auto. }
  destruct e as [subject message recipient | mail | body | | response id err | |];
    simpl; unfold NatsMailerFunc, HttpMailerFunc.
  - destruct (exec _ w) as [[w1 r] |] eqn:He; [| discriminate].
    intros H; inversion H; subst w'. eauto.
  - destruct (exec _ w) as [[w1 r] |] eqn:He; [| discriminate].
    intros H; inversion H; subst w'. eauto.
  - destruct (exec _ w) as [[w1 r] |] eqn:He; [| discriminate].
    intros H; inversion H; subst w'. eauto.
  - destruct (worker w) eqn:Hw; try discriminate.
    destruct (sendChannel (mailer w)) as [c |]; [| discriminate].
    destruct (buf c); [discriminate |].
    intros H; inversion H; subst w'; simpl.
    rewrite app_nil_r, orb_false_r. repeat split; auto; discriminate.
  - destruct (worker w) eqn:Hw; try discriminate.
    intros H; inversion H; subst w'; unfold handle; simpl.
    rewrite orb_false_r.
    destruct err; simpl; rewrite ?app_nil_r; repeat split; auto; discriminate.
  - intros H; inversion H; subst w'; simpl.
    rewrite app_nil_r, orb_true_r. repeat split; auto.
  - destruct (worker w) eqn:Hw; try discriminate.
    destruct (ctxDone w) eqn:Hd; try discriminate.
    intros H; inversion H; subst w'; simpl.
    rewrite app_nil_r. repeat split; auto; discriminate.
Qed.

(** Along a run. *)
Lemma run_frame (tr : list Event) : forall w w',
  run w tr = Some w' ->
  errlog w' = errlog w ++ provider_errors tr
  /\ ctxDone w' = (ctxDone w || closed tr)%bool
  /\ (worker w' = Exited -> worker w = Exited \/ ctxDone w' = true)
  /\ (worker w = Exited -> worker w' = Exited /\ calls w' = calls w).
Proof.
  induction tr as [| e tr IH]; simpl; intros w w' H.
  - inversion H; subst w'. rewrite app_nil_r, orb_false_r. auto.
  - destruct (step w e) as [w1 |] eqn:Hs; [| discriminate].
    destruct (step_frame _ _ _ Hs) as (He1 & Hd1 & Hx1 & Hf1).
    destruct (IH _ _ H) as (He & Hd & Hx & Hf).
    simpl in He1, Hd1. rewrite app_nil_r in He1. rewrite orb_false_r in Hd1.
    unfold provider_errors in *. simpl. split; [| split; [| split]].
    + rewrite He, He1, <- app_assoc. reflexivity.
    + rewrite Hd, Hd1, orb_assoc. reflexivity.
    + intros Hw'. destruct (Hx Hw') as [Hw1 | Hdone]; auto.
      destruct (Hx1 Hw1) as [Hw | Hdw]; auto.
      right. rewrite Hd, Hd1, Hdw. reflexivity.
    + intros Hw. destruct (Hf1 Hw) as (Hw1 & Hc1).
      destruct (Hf Hw1) as (Hw' & Hc'). split; congruence.
Qed.

(** The channel of an engine made by [NewMailGun] stays unbuffered and
    empty, and the sender stays the configured one. *)
Lemma NewMailGun_channel
  (domain apiKey sender_ : string) (tr : list Event) (w : World) :
  run (NewMailGun domain apiKey sender_) tr = Some w ->
  exists c, sendChannel (mailer w) = Some c /\ cap c = 0 /\ buf c = []
            /\ sender (mailer w) = sender_.
Proof.
  intros H.
  destruct (run_spec _ _ _ _ (NewMailGun_started domain apiKey sender_) H)
    as ((c & Hc & Hle) & Hs & Hcap & _).
  exists c. unfold capacity in Hcap. rewrite Hc in Hcap. simpl in Hcap.
  rewrite Hcap in Hle. repeat split; auto.
  destruct (buf c); simpl in *; [reflexivity | lia].
Qed.

(** On an unbuffered, empty channel [SendMail] completes when the worker
    waits, handing it the struct, and in no other state of the worker. *)
Lemma SendMail_on_unbuffered
  (w : World) (c : chan) (subject message recipient : string) :
  sendChannel (mailer w) = Some c -> cap c = 0 -> buf c = [] ->
  exec (SendMail (mailer w) subject message recipient) w
  = match worker w with
    | Waiting =>
        Some (with_worker w (Handling (Build_mailStruct (sender (mailer w))
                                         message subject recipient)),
              None)
    | _ => None
    end.
Proof.
  intros Hc Hcap Hb. unfold SendMail. rewrite Hc. simpl. unfold chan_send.
  rewrite Hc, Hcap, Hb. simpl. now destruct (worker w).
Qed.

(** A provider error goes to the log and nowhere else: after any run of an
    engine made by [NewMailGun] the log holds the errors the provider
    answered, in order, and every [SendMail] that completed returned nil. *)
Theorem provider_errors_only_logged
  (domain apiKey sender_ : string) (tr : list Event) (w : World) :
  run (NewMailGun domain apiKey sender_) tr = Some w ->
  errlog w = provider_errors tr
  /\ returned w = map (fun _ => None) (submitted tr).
Proof.
  intros H. split.
  - now destruct (run_frame _ _ _ H) as (He & _).
  - now destruct (run_spec _ _ _ _ (NewMailGun_started domain apiKey sender_) H)
      as (_ & _ & _ & _ & Hr).
Qed.

(** The worker of an engine made by [NewMailGun] leaves its loop only after
    [Close]: the context is cancelled exactly when the run holds a [Close],
    and a run without one never ends with the worker gone. *)
Theorem worker_exits_only_after_Close
  (domain apiKey sender_ : string) (tr : list Event) (w : World) :
  run (NewMailGun domain apiKey sender_) tr = Some w ->
  ctxDone w = closed tr
  /\ (worker w = Exited -> closed tr = true).
Proof.
  intros H. destruct (run_frame _ _ _ H) as (_ & Hd & Hx & _).
  simpl in Hd. split; [exact Hd |].
  intros Hw. destruct (Hx Hw) as [Habs | Hdone]; [discriminate | congruence].
Qed.

(** Once the worker has left, it stays gone and the provider is never
    called again, whatever happens afterwards. *)
Theorem exited_worker_is_final (w w' : World) (tr : list Event) :
  worker w = Exited ->
  run w tr = Some w' ->
  worker w' = Exited /\ calls w' = calls w.
Proof.
  intros Hw H. now destruct (run_frame _ _ _ H) as (_ & _ & _ & Hf);
    apply Hf.
Qed.

(** Backpressure: on an engine made by [NewMailGun], a [SendMail] (direct,
    over NATS or over HTTP) completes exactly when the worker waits in its
    [select]; it then leaves the worker holding the submitted triple under
    the engine's sender, and blocks while the worker is sending or gone. *)
Theorem SendMail_completes_iff_worker_waiting
  (domain apiKey sender_ : string) (tr : list Event) (w : World)
  (e : Event) (p : Prog) :
  run (NewMailGun domain apiKey sender_) tr = Some w ->
  ingress (mailer w) e = Some p ->
  ((exists w', step w e = Some w') <-> worker w = Waiting)
  /\ forall w', step w e = Some w' ->
       exists subject message recipient,
         submitted_by e = [(subject, message, recipient)]
         /\ worker w' = Handling (Build_mailStruct sender_ message subject
                                                   recipient)
         /\ calls w' = calls w.
Proof.
  intros H Hi.
  destruct (NewMailGun_channel _ _ _ _ _ H) as (c & Hc & Hcap & Hb & Hs).
  destruct (ingress_is_SendMail _ _ _ Hi)
    as (subject & message & recipient & -> & Hsub & Hstep).
  rewrite (Hstep w eq_refl), (SendMail_on_unbuffered _ _ _ _ _ Hc Hcap Hb).
  rewrite Hs. split.
  - destruct (worker w); split; intros Hx;
      try (destruct Hx; discriminate); try discriminate; eauto.
  - intros w' Hw'. exists subject, message, recipient.
    destruct (worker w); inversion Hw'; subst w'; simpl. auto.
Qed.

(** [Close] does not close the door at once: with the worker waiting, after
    [Close] the worker may leave, and as well a [SendMail] may still be
    taken by the worker, which then sends it. *)
Theorem Close_races_with_submission
  (domain apiKey sender_ : string) (tr : list Event) (w : World) :
  run (NewMailGun domain apiKey sender_) tr = Some w ->
  worker w = Waiting ->
  exists w1,
    step w EvClose = Some w1
    /\ (exists w2, step w1 EvDone = Some w2 /\ worker w2 = Exited)
    /\ forall subject message recipient response id err,
         exists w2 w3,
           step w1 (EvSendMail subject message recipient) = Some w2
           /\ step w2 (EvProviderSend response id err) = Some w3
           /\ calls w3
              = calls w ++ [NewMessage sender_ subject message [recipient]].
Proof.
  intros H Hw.
  destruct (NewMailGun_channel _ _ _ _ _ H) as (c & Hc & Hcap & Hb & Hs).
  eexists; split; [reflexivity |]. split.
  - simpl. rewrite Hw. eexists; split; reflexivity.
  - intros subject message recipient response id err.
    pose proof (SendMail_on_unbuffered
                  {| mailer := mailer w; worker := worker w; ctxDone := true;
                     calls := calls w; errlog := errlog w;
                     returned := returned w |}
                  c subject message recipient Hc Hcap Hb) as Hx.
    simpl in Hx. simpl. rewrite Hx, Hw. simpl.
    do 2 eexists; split; [reflexivity |]. simpl. split; [reflexivity |].
    now rewrite Hs.
Qed.

(** The HTTP handler never rejects a request: whatever the body and whatever
    the decoder reports, with the worker waiting the handler's [SendMail]
    completes with nil and hands the worker the subject, message and
    recipient the decoder left in the struct, under the engine's sender. *)
Theorem HttpMailerFunc_ignores_decode_error
  (domain apiKey sender_ : string) (tr : list Event) (w : World)
  (body : string) :
  run (NewMailGun domain apiKey sender_) tr = Some w ->
  worker w = Waiting ->
  let mail := fst (json_Decode body mailStruct_zero) in
  exists w',
    step w (EvHttp body) = Some w'
    /\ worker w' = Handling (Build_mailStruct sender_ (Message mail)
                                              (Subject mail) (Recipient mail))
    /\ returned w' = returned w ++ [None].
Proof.
  intros H Hw mail.
  destruct (NewMailGun_channel _ _ _ _ _ H) as (c & Hc & Hcap & Hb & Hs).
  simpl. unfold HttpMailerFunc. fold mail.
  rewrite (SendMail_on_unbuffered _ _ _ _ _ Hc Hcap Hb), Hw, Hs.
  eexists; split; [reflexivity |]. simpl. auto.
Qed.

End DispatchEngineLifecycle.

(** Closed runs for the lifecycle of the engine. *)

Lemma provider_errors_only_logged_witness :
  exists w,
    Server.run Server.json_Decode_no_value
      (Server.NewMailGun "example.org" "key" "info@suricata.com")
      Server.trace_provider_errors
    = Some w
    /\ Server.errlog w = [ExternalError "mailgun: 401";
                          ExternalError "mailgun: 401"]
    /\ Server.returned w = [None; None].
Proof.
  eexists; split; [reflexivity |].
  exact (provider_errors_only_logged Server.json_Decode_no_value
           "example.org" "key" "info@suricata.com"
           Server.trace_provider_errors _ eq_refl).
Defined.

Lemma worker_exits_only_after_Close_witness :
  exists w,
    Server.run Server.json_Decode_no_value
      (Server.NewMailGun "example.org" "key" "info@suricata.com")
      Server.trace_closed
    = Some w
    /\ Server.worker w = Server.Exited
    /\ Server.ctxDone w = true
    /\ (Server.worker w = Server.Exited ->
        Server.closed Server.trace_closed = true).
Proof.
  eexists; split; [reflexivity |]. split; [reflexivity |].
  exact (worker_exits_only_after_Close Server.json_Decode_no_value
           "example.org" "key" "info@suricata.com"
           Server.trace_closed _ eq_refl).
Defined.

Lemma exited_worker_is_final_witness :
  let gone := {| Server.mailer := {| Server.sendChannel := Some (Server.make 0);
                                     Server.sender := "info@suricata.com" |};
                 Server.worker := Server.Exited;
                 Server.ctxDone := true;
                 Server.calls := [Server.NewMessage "info@suricata.com" "Hi"
                                                    "Hello" ["a@b.com"]];
                 Server.errlog := [];
                 Server.returned := [None] |} in
  Server.run Server.json_Decode_no_value gone [Server.EvClose; Server.EvClose]
  = Some gone
  /\ Server.worker gone = Server.Exited
  /\ Server.calls gone
     = [Server.NewMessage "info@suricata.com" "Hi" "Hello" ["a@b.com"]].
Proof.
  intros gone. split; [reflexivity |].
  exact (exited_worker_is_final Server.json_Decode_no_value gone gone
           [Server.EvClose; Server.EvClose] eq_refl eq_refl).
Defined.

Lemma SendMail_completes_iff_worker_waiting_witness :
  let busy := {| Server.mailer := {| Server.sendChannel := Some (Server.make 0);
                                     Server.sender := "info@suricata.com" |};
                 Server.worker :=
                   Server.Handling (Server.Build_mailStruct "info@suricata.com"
                                      "Hello" "Hi" "a@b.com");
                 Server.ctxDone := false;
                 Server.calls := [];
                 Server.errlog := [];
                 Server.returned := [None] |} in
  Server.run Server.json_Decode_no_value
    (Server.NewMailGun "example.org" "key" "info@suricata.com")
    [Server.EvSendMail "Hi" "Hello" "a@b.com"]
  = Some busy
  /\ Server.step Server.json_Decode_no_value busy
       (Server.EvNats (Server.Build_mailStruct "" "Welcome" "Registration"
                                               "c@d.org"))
     = None
  /\ ((exists w', Server.step Server.json_Decode_no_value busy
                    (Server.EvNats (Server.Build_mailStruct "" "Welcome"
                                      "Registration" "c@d.org")) = Some w')
      <-> Server.worker busy = Server.Waiting).
Proof.
  intros busy. split; [reflexivity |]. split; [reflexivity |].
  exact (proj1 (SendMail_completes_iff_worker_waiting
                  Server.json_Decode_no_value
                  "example.org" "key" "info@suricata.com"
                  [Server.EvSendMail "Hi" "Hello" "a@b.com"] busy
                  (Server.EvNats (Server.Build_mailStruct "" "Welcome"
                                    "Registration" "c@d.org"))
                  _ eq_refl eq_refl)).
Defined.

Lemma Close_races_with_submission_witness :
  exists w1,
    Server.step Server.json_Decode_no_value
      (Server.NewMailGun "example.org" "key" "info@suricata.com")
      Server.EvClose = Some w1
    /\ (exists w2, Server.step Server.json_Decode_no_value w1 Server.EvDone
                   = Some w2
                   /\ Server.worker w2 = Server.Exited)
    /\ forall subject message recipient response id err,
         exists w2 w3,
           Server.step Server.json_Decode_no_value w1
             (Server.EvSendMail subject message recipient) = Some w2
           /\ Server.step Server.json_Decode_no_value w2
                (Server.EvProviderSend response id err) = Some w3
           /\ Server.calls w3
              = [Server.NewMessage "info@suricata.com" subject message
                                   [recipient]].
Proof.
  exact (Close_races_with_submission Server.json_Decode_no_value
           "example.org" "key" "info@suricata.com" []
           (Server.NewMailGun "example.org" "key" "info@suricata.com")
           eq_refl eq_refl).
Defined.

Lemma HttpMailerFunc_ignores_decode_error_witness :
  exists w',
    Server.step Server.json_Decode_no_value
      (Server.NewMailGun "example.org" "key" "info@suricata.com")
      (Server.EvHttp "not json") = Some w'
    /\ Server.worker w'
       = Server.Handling (Server.Build_mailStruct "info@suricata.com" "" "" "")
    /\ Server.returned w' = [None].
Proof.
  exact (HttpMailerFunc_ignores_decode_error Server.json_Decode_no_value
           "example.org" "key" "info@suricata.com" []
           (Server.NewMailGun "example.org" "key" "info@suricata.com")
           "not json" eq_refl eq_refl).
Defined.

(** * The client: more on resolution, sending and composing *)

(** [json.Marshal] of an [Email] succeeds. *)
Lemma Email_marshal_ok (e : Client.Email) :
  Client.encoding_json_Marshal e
  = (fst (Client.encoding_json_Marshal e), None).
Proof.
  unfold Client.encoding_json_Marshal, Json.Marshal, Client.Email_value.
  destruct (encode_string_fields
              [("Recipient", Client.Recipient e);
               ("Subject", Client.Subject e);
               ("Message", Client.Message e)]) as (out & Ho).
  simpl map in Ho. rewrite Ho. reflexivity.
Qed.

(** Without an address nothing is sent: when the directory fails, or
    answers an empty list, [SendMail] returns the directory's error, or
    [ErrMailServiceNotFound], and posts nothing, whatever the serializer and
    the network would do. *)
Theorem SendMail_without_address_posts_nothing
  (json_Marshal : Client.Email -> string * option error)
  (http_Post : Client.HttpRequest -> option error)
  (client : Client.SuricataMailClient) (disc : Client.RegistryClient)
  (addresses : list string) (err : option error)
  (recipient subject message : string) :
  Client.discoveryClient client = Some disc ->
  Client.ServicesByName disc Client.MailServiceType = (addresses, err) ->
  err <> None \/ addresses = [] ->
  Client.SendMail json_Marshal http_Post client recipient subject message
  = Client.Ret ([], Some match err with
                         | Some e => e
                         | None => ErrMailServiceNotFound
                         end).
Proof.
  intros Hd Hs Hno. unfold Client.SendMail, Client.resolveUrl.
  rewrite Hd, Hs. destruct err as [e |]; [reflexivity |].
  destruct Hno as [Habs | ->]; [congruence | reflexivity].
Qed.

Lemma SendMail_without_address_posts_nothing_witness :
  Client.SendMail Client.encoding_json_Marshal (fun _ => None)
    (Client.NewSuricataMailClient
       (Some {| Client.ServicesByName := fun _ => ([], None) |}))
    "sohlich@gmail.com" "Subj" "Message"
  = Client.Ret ([], Some ErrMailServiceNotFound)
  /\ Client.SendMail Client.encoding_json_Marshal (fun _ => None)
       (Client.NewSuricataMailClient
          (Some {| Client.ServicesByName :=
                     fun _ => (["127.0.0.1:3030"],
                               Some (ExternalError "etcd: unreachable")) |}))
       "sohlich@gmail.com" "Subj" "Message"
     = Client.Ret ([], Some (ExternalError "etcd: unreachable")).
Proof.
  split.
  - exact (SendMail_without_address_posts_nothing
             Client.encoding_json_Marshal (fun _ => None)
             (Client.NewSuricataMailClient
                (Some {| Client.ServicesByName := fun _ => ([], None) |}))
             _ [] None "sohlich@gmail.com" "Subj" "Message"
             eq_refl eq_refl (or_intror eq_refl)).
  - exact (SendMail_without_address_posts_nothing
             Client.encoding_json_Marshal (fun _ => None)
             (Client.NewSuricataMailClient
                (Some {| Client.ServicesByName :=
                           fun _ => (["127.0.0.1:3030"],
                                     Some (ExternalError "etcd: unreachable")) |}))
             _ ["127.0.0.1:3030"] (Some (ExternalError "etcd: unreachable"))
             "sohlich@gmail.com" "Subj" "Message"
             eq_refl eq_refl
             (or_introl (fun H => eq_ind (Some (ExternalError "etcd: unreachable"))
                                    (fun o => match o with
                                              | Some _ => True
                                              | None => False
                                              end) I None H))).
Defined.

(** With the serializer of the standard library, [SendMail] returns nil in
    one case only: the directory answered a non-empty list without error,
    exactly one request went to the first address, as [application/json]
    with the serialized [Email] as body, and the post reported no error. *)
Theorem SendMail_nil_iff_posted
  (http_Post : Client.HttpRequest -> option error)
  (client : Client.SuricataMailClient)
  (recipient subject message : string) (requests : list Client.HttpRequest) :
  Client.SendMail Client.encoding_json_Marshal http_Post client
    recipient subject message
  = Client.Ret (requests, None)
  <-> exists disc first others,
        Client.discoveryClient client = Some disc
        /\ Client.ServicesByName disc Client.MailServiceType
           = (first :: others, None)
        /\ requests
           = [{| Client.url := ("http://" ++ first)%string;
                 Client.contentType := "application/json";
                 Client.body :=
                   fst (Client.encoding_json_Marshal
                          (Client.Build_Email recipient subject message)) |}]
        /\ Forall (fun request => http_Post request = None) requests.
Proof.
  unfold Client.SendMail, Client.resolveUrl.
  rewrite (Email_marshal_ok (Client.Build_Email recipient subject message)).
  change Client.HttpMIMEBodyType with "application/json".
  destruct (Client.discoveryClient client) as [disc |].
  - destruct (Client.ServicesByName disc Client.MailServiceType)
      as [[| first others] [e |]] eqn:Hs; simpl.
    + split; [discriminate | intros (d & f & o & Hd & Hx & _)].
      inversion Hd; subst d. congruence.
    + split; [discriminate | intros (d & f & o & Hd & Hx & _)].
      inversion Hd; subst d. congruence.
    + split; [discriminate | intros (d & f & o & Hd & Hx & _)].
      inversion Hd; subst d. congruence.
    + destruct (http_Post _) as [postErr |] eqn:Hp.
      * split; [discriminate | intros (d & f & o & Hd & Hx & Hr & HF)].
        inversion Hd; subst d. rewrite Hs in Hx. inversion Hx; subst f o.
        subst requests. inversion HF; subst. congruence.
      * split.
        -- intros H; inversion H; subst requests.
           exists disc, first, others. repeat split; auto.
        -- intros (d & f & o & Hd & Hx & Hr & HF).
           inversion Hd; subst d. rewrite Hs in Hx. inversion Hx; subst f o.
           now subst requests.
  - split; [discriminate | intros (d & f & o & Hd & _); discriminate].
Qed.

(** [SendMail] panics exactly when the client was made without a
    directory; [IsConnected] answers [ErrMailClientNotInitialized] in that
    case. *)
Theorem SendMail_panics_iff_no_directory
  (json_Marshal : Client.Email -> string * option error)
  (http_Post : Client.HttpRequest -> option error)
  (client : Client.SuricataMailClient)
  (recipient subject message : string) :
  (Client.SendMail json_Marshal http_Post client recipient subject message
   = Client.Panic
   <-> Client.discoveryClient client = None)
  /\ (Client.discoveryClient client = None ->
      Client.IsConnected client = (false, Some ErrMailClientNotInitialized)).
Proof.
  unfold Client.SendMail, Client.resolveUrl, Client.IsConnected.
  destruct (Client.discoveryClient client) as [disc |]; split.
  - destruct (Client.ServicesByName disc Client.MailServiceType)
      as [services [e |]]; simpl.
    + split; discriminate.
    + destruct (List.length services =? 0); simpl; [split; discriminate |].
      destruct (json_Marshal _) as [out [je |]]; [split; discriminate |].
      destruct (http_Post _); split; discriminate.
  - discriminate.
  - split; auto.
  - auto.
Qed.

(** [IsConnected] answers true exactly when [resolveUrl] would return an
    address; when the directory answers without error, [IsConnected] answers
    false and no error exactly when [resolveUrl] answers
    [ErrMailServiceNotFound]. *)
Theorem IsConnected_iff_resolves (client : Client.SuricataMailClient) :
  (Client.IsConnected client = (true, None)
   <-> exists serviceURL,
         Client.resolveUrl client = Client.Ret (serviceURL, None))
  /\ (forall disc services,
         Client.discoveryClient client = Some disc ->
         Client.ServicesByName disc Client.MailServiceType = (services, None) ->
         (Client.IsConnected client = (false, None)
          <-> Client.resolveUrl client
              = Client.Ret ("", Some ErrMailServiceNotFound))).
Proof.
  unfold Client.IsConnected, Client.resolveUrl.
  destruct (Client.discoveryClient client) as [disc |].
  - split.
    + destruct (Client.ServicesByName disc Client.MailServiceType)
        as [[| first others] [e |]]; simpl;
        try (split; [discriminate | intros (u & Hu); discriminate]).
      split; eauto.
    + intros d services Hd Hs. inversion Hd; subst d. rewrite Hs.
      destruct services; simpl; split; congruence.
  - split; [split; [discriminate | intros (u & Hu); discriminate] |].
    discriminate.
Qed.

(** The walk on a struct: with every field there, the whole rendering and
    no error; with one missing, an error. *)
Lemma walk_struct (fields : list (string * string)) (t : Template.Template) :
  forall wr,
  (Template.fields_present t fields ->
   Template.walk t (Template.DStruct fields) wr
   = ((wr ++ Template.render t fields)%string, None))
  /\ (snd (Template.walk t (Template.DStruct fields) wr) = None ->
      Template.fields_present t fields).
Proof.
  unfold Template.fields_present, Template.render.
  induction t as [| n t IH]; intros wr; simpl.
  - rewrite string_app_nil_r. auto.
  - destruct n as [text | name]; simpl.
    + destruct (IH (wr ++ text)%string) as (IH1 & IH2). split.
      * intros HF. inversion HF; subst.
        rewrite IH1, string_app_assoc by assumption. reflexivity.
      * intros Hn. constructor; auto.
    + destruct (Template.field name fields) as [v |] eqn:Hf; simpl.
      * destruct (IH (wr ++ v)%string) as (IH1 & IH2). split.
        -- intros HF. inversion HF; subst.
           rewrite IH1, string_app_assoc by assumption. reflexivity.
        -- intros Hn. constructor; [congruence | auto].
      * split; [| discriminate].
        intros HF. inversion HF; subst. congruence.
Qed.

(** On a struct, the execution of a template fails exactly when the
    template refers to a field the struct lacks; when none is lacking the
    composer returns the whole text with every action replaced by its
    field. *)
Theorem Compose_complete_iff_fields_present
  (mc : Client.SuricataMessageComposer) (fields : list (string * string)) :
  (snd (Template.Execute (Client.MessageTemplate mc) ""
          (Template.DStruct fields)) = None
   <-> Template.fields_present (Client.MessageTemplate mc) fields)
  /\ (Template.fields_present (Client.MessageTemplate mc) fields ->
      Client.ComposeMessage mc (Template.DStruct fields)
      = Template.render (Client.MessageTemplate mc) fields)
  /\ (snd (Template.Execute (Client.SubjectTemplate mc) ""
             (Template.DStruct fields)) = None
      <-> Template.fields_present (Client.SubjectTemplate mc) fields)
  /\ (Template.fields_present (Client.SubjectTemplate mc) fields ->
      Client.ComposeSubject mc (Template.DStruct fields)
      = Template.render (Client.SubjectTemplate mc) fields).
Proof.
  unfold Client.ComposeMessage, Client.ComposeSubject, Template.Execute.
  destruct (walk_struct fields (Client.MessageTemplate mc) "") as (M1 & M2).
  destruct (walk_struct fields (Client.SubjectTemplate mc) "") as (S1 & S2).
  repeat split; auto.
  - intros HF. now rewrite (M1 HF).
  - intros HF. now rewrite (M1 HF).
  - intros HF. now rewrite (S1 HF).
  - intros HF. now rewrite (S1 HF).
Qed.

(** What the composer of the repository makes of any data: the subject is
    the fixed line; the message is the fixed text followed by the
    confirmation link of a struct that has one, by nothing for a struct
    without one and for a string, and by [<no value>] for nil. *)
Lemma repository_composer (d : Template.data) :
  let composer := Client.NewMailComposer Client.subjectTemp Client.messageTemp in
  Client.ComposeSubject composer d = "Suricata: Registration confirmation"
  /\ Client.ComposeMessage composer d
     = ("Please confirm the registration on Suricata Talk website with click on this link "
        ++ match d with
           | Template.DStruct fields =>
               match Template.field "ConfirmationLink" fields with
               | Some link => link
               | None => ""
               end
           | Template.DString _ => ""
           | Template.DNil => "<no value>"
           end)%string.
Proof.
  unfold Client.ComposeSubject, Client.ComposeMessage, Template.Execute.
  split; [reflexivity |].
  destruct d as [| s | fields]; try reflexivity.
  simpl. destruct (Template.field "ConfirmationLink" fields); reflexivity.
Qed.

(** In the version with the composer, a message that cannot be rendered in
    full does not stop the mail: with an address resolved and the [Email]
    serialized, [SendMail] posts one request whose [Email] has the fixed
    subject and the fixed text, followed by the link only when the data is a
    struct with a [ConfirmationLink], and returns what the post returns. *)
Theorem SendMail_with_composer_sends_incomplete_mail
  (json_Marshal : Client.Email -> string * option error)
  (http_Post : Client.HttpRequest -> option error)
  (disc : Client.RegistryClient) (first : string) (others : list string)
  (recipient out : string) (subject message : Template.data) :
  let sent :=
    Client.Build_Email recipient "Suricata: Registration confirmation"
      ("Please confirm the registration on Suricata Talk website with click on this link "
       ++ match message with
          | Template.DStruct fields =>
              match Template.field "ConfirmationLink" fields with
              | Some link => link
              | None => ""
              end
          | Template.DString _ => ""
          | Template.DNil => "<no value>"
          end)%string in
  let request := {| Client.url := ("http://" ++ first)%string;
                    Client.contentType := "application/json";
                    Client.body := out |} in
  Client.ServicesByName disc Client.MailServiceType = (first :: others, None) ->
  json_Marshal sent = (out, None) ->
  ClientWithComposer.SendMail json_Marshal http_Post
    (ClientWithComposer.NewSuricataMailClient (Some disc))
    recipient subject message
  = Client.Ret ([request], http_Post request).
Proof.
  intros sent request Hs Hj.
  cbv beta iota delta
    [ClientWithComposer.SendMail ClientWithComposer.resolveUrl
     Client.resolveUrl ClientWithComposer.NewSuricataMailClient
     Client.NewSuricataMailClient ClientWithComposer.discoveryClient
     Client.discoveryClient ClientWithComposer.composer].
  rewrite Hs. cbn [List.length Nat.eqb nth].
  destruct (repository_composer subject) as (Hsub & _).
  destruct (repository_composer message) as (_ & Hmsg).
  cbv zeta in Hsub, Hmsg. unfold Client.NewMailComposer in Hsub, Hmsg.
  rewrite Hsub, Hmsg. unfold sent in Hj. rewrite Hj.
  change Client.HttpMIMEBodyType with "application/json". fold request.
  now destruct (http_Post request).
Qed.

Lemma SendMail_with_composer_sends_incomplete_mail_witness :
  let sent :=
    Client.Build_Email "sohlich@gmail.com"
      "Suricata: Registration confirmation"
      "Please confirm the registration on Suricata Talk website with click on this link " in
  ClientWithComposer.SendMail Client.encoding_json_Marshal (fun _ => None)
    (ClientWithComposer.NewSuricataMailClient (Some Client.FakeRegistryClient))
    "sohlich@gmail.com" (Template.DString "Subj") (Template.DStruct [])
  = Client.Ret ([{| Client.url := "http://127.0.0.1:3030";
                    Client.contentType := "application/json";
                    Client.body := fst (Client.encoding_json_Marshal sent) |}],
                None).
Proof.
  exact (SendMail_with_composer_sends_incomplete_mail
           Client.encoding_json_Marshal (fun _ => None)
           Client.FakeRegistryClient "127.0.0.1:3030" [] "sohlich@gmail.com"
           (fst (Client.encoding_json_Marshal
                   (Client.Build_Email "sohlich@gmail.com"
                      "Suricata: Registration confirmation"
                      "Please confirm the registration on Suricata Talk website with click on this link ")))
           (Template.DString "Subj") (Template.DStruct [])
           eq_refl eq_refl).
Defined.

(** The first version of [SendMail] sends, for every subject and message it
    is called with, the [Email] with the fixed subject and an empty message,
    once an address is resolved and the [Email] serialized. *)
Theorem SendMail_fixed_subject_sends_literal
  (json_Marshal : Client.Email -> string * option error)
  (http_Post : Client.HttpRequest -> option error)
  (client : ClientFixedSubject.SuricataMailClient)
  (serviceUrl recipient subject message out : string) :
  let request := {| Client.url := serviceUrl;
                    Client.contentType := "application/json";
                    Client.body := out |} in
  ClientFixedSubject.resolveUrl client = Client.Ret (serviceUrl, None) ->
  json_Marshal (Client.Build_Email recipient
                  "Suricata: Registration confirmation" "")
  = (out, None) ->
  ClientFixedSubject.SendMail json_Marshal http_Post client
    recipient subject message
  = Client.Ret ([request], http_Post request).
Proof.
  intros request Hr Hj. unfold ClientFixedSubject.SendMail. rewrite Hr, Hj.
  change Client.HttpMIMEBodyType with "application/json". fold request.
  now destruct (http_Post request).
Qed.

Lemma SendMail_fixed_subject_sends_literal_witness :
  ClientFixedSubject.SendMail Client.encoding_json_Marshal (fun _ => None)
    (ClientFixedSubject.NewSuricataMailClient (Some Client.FakeRegistryClient))
    "sohlich@gmail.com" "Subj" "Message"
  = Client.Ret
      ([{| Client.url := "http://127.0.0.1:3030";
           Client.contentType := "application/json";
           Client.body :=
             fst (Client.encoding_json_Marshal
                    (Client.Build_Email "sohlich@gmail.com"
                       "Suricata: Registration confirmation" "")) |}],
       None).
Proof.
  exact (SendMail_fixed_subject_sends_literal
           Client.encoding_json_Marshal (fun _ => None)
           (ClientFixedSubject.NewSuricataMailClient
              (Some Client.FakeRegistryClient))
           "http://127.0.0.1:3030" "sohlich@gmail.com" "Subj" "Message"
           (fst (Client.encoding_json_Marshal
                   (Client.Build_Email "sohlich@gmail.com"
                      "Suricata: Registration confirmation" "")))
           eq_refl eq_refl).
Defined.

(** * The server's registration and the client's resolution *)

Lemma string_app_inv_head (a b c : string) :
  (a ++ b)%string = (a ++ c)%string -> b = c.
Proof.
  induction a as [| x a IH]; simpl; intros H; [exact H |].
  inversion H. auto.
Qed.

(** The server registers under the name the client looks up, with the
    address [Host:Port] of its configuration, so that a client whose
    directory answers with this registration posts to [http://Host:Port];
    the server, though, listens on port 5050 whatever the configuration
    says: the registered address is the listening one exactly when [Port]
    is [5050]. *)
Theorem registered_address_and_listening_port
  (appConfig : Main.AppConfig) (etcdEndpoint : string)
  (client : Client.SuricataMailClient) (disc : Client.RegistryClient) :
  let registration := Main.registryConfig appConfig etcdEndpoint in
  Client.discoveryClient client = Some disc ->
  Client.ServicesByName disc (Main.RegistryServiceName registration)
  = ([Main.BaseURL registration], None) ->
  Main.RegistryServiceName registration = Client.MailServiceType
  /\ Client.resolveUrl client
     = Client.Ret (("http://" ++ Main.Host appConfig ++ ":"
                    ++ Main.Port appConfig)%string, None)
  /\ (Main.BaseURL registration
      = (Main.Host appConfig ++ Main.listenAddr)%string
      <-> Main.Port appConfig = "5050").
Proof.
  intros registration Hd Hs. split; [reflexivity |]. split.
  - unfold Client.resolveUrl. rewrite Hd.
    change Client.MailServiceType with (Main.RegistryServiceName registration).
    rewrite Hs. reflexivity.
  - unfold registration, Main.registryConfig, Main.listenAddr; simpl. split.
    + intros H. apply string_app_inv_head in H. now inversion H.
    + intros ->. reflexivity.
Qed.

Lemma registered_address_and_listening_port_witness :
  let moved := {| Main.Host := "10.0.0.7";
                  Main.Port := "8080";
                  Main.Name := "mail1";
                  Main.Domain := "example.org";
                  Main.ApiKey := "key";
                  Main.Sender := "info@suricata.com" |} in
  let client :=
    Client.NewSuricataMailClient
      (Some {| Client.ServicesByName := fun _ => (["10.0.0.7:8080"], None) |}) in
  Client.resolveUrl client = Client.Ret ("http://10.0.0.7:8080", None)
  /\ (Main.BaseURL (Main.registryConfig moved "http://127.0.0.1:4001")
      = "10.0.0.7:5050"
      <-> "8080" = "5050").
Proof.
  intros moved client.
  exact (proj2 (registered_address_and_listening_port
                  moved "http://127.0.0.1:4001" client
                  {| Client.ServicesByName :=
                       fun _ => (["10.0.0.7:8080"], None) |}
                  eq_refl eq_refl)).
Defined.
